(** * TimerAD: the focus-timer subsystem of the Productivity Hub

    A shallow embedding of the timer code of [src/index.tsx] and
    [src/unnamed/part_000].  The repository holds three versions of the same
    React component [App]:

    - [Part000]  : [src/unnamed/part_000] (the timer is started by setting
                   [timedTaskId]; an effect then opens the window);
    - [Widget]   : [src/index.tsx], lines 1-532 (a focus widget that is opened
                   first, [isDistracted] is React state, a polling interval
                   watches for a closed window);
    - [Direct]   : [src/index.tsx], lines 533-979 ([handleStartTimer] opens
                   the window itself and only then sets [timedTaskId]).

    Conventions of the embedding.

    - A JavaScript [number] holding a count of seconds is a [Z]; the
      development is about the integers JavaScript represents exactly.
    - A React state cell or a ref is a field of the record [App]; a handler
      is a function on [App].  [setX v] is the assignment of the field, and
      the run of the effects that follows a state change is a function of
      its own, named after the effect.
    - The browser is part of the state: the live intervals created by
      [window.setInterval] and the windows handed out by
      [documentPictureInPicture.requestWindow]. *)

From Stdlib Require Import ZArith Lia Ascii Numbers.DecimalString DecimalPos DecimalZ.
From stdpp Require Import gmap strings list fin_maps.

Open Scope Z_scope.

(** ** Types and interfaces *)

(** [type Task = {...}] with [status: 'todo' | 'inprogress' | 'done']. *)
Inductive Status := todo | inprogress | done.

Record Task := mkTask {
  id : string;
  name : string;
  impact : Z;
  effort : Z;
  deadline : string;
  status : Status;
  timeSpent : Z;        (* in seconds *)
  distractionTime : Z   (* in seconds *)
}.

(** JavaScript truthiness of a [string | null]: [null] and the empty string
    are falsy.  This is the test made by [if (timedTaskId)] and
    [if (!timedTaskId)]. *)
Definition truthy (v : option string) : bool :=
  match v with
  | Some s => negb (String.eqb s "")
  | None => false
  end.

(** ** Utility functions *)

(** [Number.prototype.toString] on an integer: decimal digits, with a leading
    minus sign for a negative number. *)
Definition toString (v : Z) : string :=
  NilEmpty.string_of_int (Z.to_int v).

(** [filler.repeat(...)] cut to [k] characters: the characters of [filler]
    cyclically, [rest] being what is left of the current copy. *)
Fixpoint fillChars (filler rest : string) (k : nat) : string :=
  match k with
  | O => EmptyString
  | S k' =>
      match rest with
      | String c rest' => String c (fillChars filler rest' k')
      | EmptyString =>
          match filler with
          | String c rest' => String c (fillChars filler rest' k')
          | EmptyString => EmptyString
          end
      end
  end.

(** [String.prototype.padStart(targetLength, padString)]. *)
Definition padStart (targetLength : nat) (padString : string) (s : string) : string :=
  if (targetLength <=? String.length s)%nat then s
  else String.app (fillChars padString padString (targetLength - String.length s)) s.

(** [Array.prototype.join(separator)] on an array of strings. *)
Definition join (separator : string) (parts : list string) : string :=
  String.concat separator parts.

(** [formatTime], [src/index.tsx] lines 38-45 and 569-576,
    [src/unnamed/part_000] lines 61-68.  [Math.floor (a / b)] is [Z.div]
    for a positive [b]; JavaScript's [%] takes the sign of the dividend and is
    [Z.rem]. *)
Definition formatTime (totalSeconds : Z) : string :=
  let hours := totalSeconds / 3600 in
  let minutes := Z.rem totalSeconds 3600 / 60 in
  let seconds := Z.rem totalSeconds 60 in
  join ":" (map (fun v => padStart 2 "0" (toString v)) [hours; minutes; seconds]).

(** The format as the specification words it: hours, minutes and seconds,
    each written in decimal with a zero in front when it has one digit,
    separated by colons. *)
Definition twoDigits (v : Z) : string :=
  if v <? 10 then String.app "0" (toString v) else toString v.

Definition HHMMSS (n : Z) : string :=
  String.app (twoDigits (n / 3600))
    (String.app ":" (String.app (twoDigits ((n mod 3600) / 60))
       (String.app ":" (twoDigits (n mod 60))))).

(** Reading a numeral, independently of [toString]: the value of a decimal
    digit, and of a string of digits by Horner's rule.  Any other character
    makes the reading fail. *)
Definition digitValue (c : ascii) : option Z :=
  let code := Z.of_nat (nat_of_ascii c) in
  if (48 <=? code) && (code <=? 57) then Some (code - 48) else None.

Fixpoint readDigits (acc : Z) (s : string) : option Z :=
  match s with
  | EmptyString => Some acc
  | String c s' =>
      match digitValue c with
      | Some d => readDigits (10 * acc + d) s'
      | None => None
      end
  end.

(** [written v c]: [c] is the number [v] in decimal, zero-padded to two
    digits.  It reads back as [v]; below one hundred it has exactly two
    characters, and from one hundred on it has no zero in front.  This
    fixes [c] for every [v >= 0]. *)
Definition written (v : Z) (c : string) : Prop :=
  readDigits 0 c = Some v /\
  if v <? 100 then String.length c = 2%nat else String.get 0 c <> Some "0"%char.


(** [Number.MAX_SAFE_INTEGER], [2^53 - 1]: up to it a JavaScript number that
    holds an integer holds it exactly, which is where the integers of this
    model and the doubles of the program agree.  For such an [n],
    [n / 3600] and [n % 60] as doubles are within less than [1/3600] of the
    exact quotient and exactly the remainder, so that [Math.floor] gives the
    integer quotient. *)
Definition MAX_SAFE_INTEGER : Z := 9007199254740991.

(** ** The browser: windows and interval timers *)

(** An element of a window's document, as far as the timer writes it:
    [textContent] and [style.display]. *)
Record Element := mkElement {
  textContent : string;
  display : string
}.

(** A document: its elements that carry an [id] attribute, and whether
    [body.classList] contains ['distraction']. *)
Record Document := mkDocument {
  elements : gmap string Element;
  distraction : bool
}.

(** A [Window] object: its [closed] property and its [document]. *)
Record Window := mkWindow {
  closed : bool;
  document : Document
}.

(** Window objects live in the browser and are held by reference. *)
Definition WinRef := positive.
Definition Windows := WinRef -> Window.

Definition upd (w : WinRef) (v : Window) (ws : Windows) : Windows :=
  fun w' => if Pos.eqb w' w then v else ws w'.

(** [doc.getElementById(i)]: the element, or [null]. *)
Definition getElementById (d : Document) (i : string) : option Element :=
  elements d !! i.

Definition setElement (i : string) (e : Element) (d : Document) : Document :=
  mkDocument (<[i := e]> (elements d)) (distraction d).

(** [body.classList.toggle('distraction', force)]. *)
Definition toggleDistraction (force : bool) (d : Document) : Document :=
  mkDocument (elements d) force.

(** [w.close()]. *)
Definition close (w : Window) : Window := mkWindow true (document w).

(** What the function given to [setInterval] closes over.  In [Widget] it is
    the state of the render that ran the effect ([timedTaskId],
    [isDistracted]); in [Part000] and [Direct] it is [timedTaskId] and the
    constant [pipWindow], the distraction flag being read from
    [isDistractedRef] when the function runs. *)
Inductive Closure :=
| TickOfState (timedTaskId : string) (isDistracted : bool)
| TickOfRef (timedTaskId : string) (pipWindow : WinRef).

(** What the user is shown outside the page. *)
Inductive Output :=
| alert (message : string)
| consoleError (message : string).

(** How [window.documentPictureInPicture.requestWindow] can end:
    ['documentPictureInPicture' in window] is false; the promise is rejected
    (with a [DOMException] named ['SecurityError'], or with something else);
    or a window is handed out. *)
Inductive Acquisition :=
| Unsupported
| Rejected (securityError : bool)
| Granted (pipWindow : WinRef).

(** ** The component state *)

(** [useState] cells ([tasks], [timedTaskId], [widgetError]; [isDistracted]
    in [Widget]), [useRef] cells ([pipWindowRef], [timerIntervalRef];
    [isDistractedRef] in [Part000] and [Direct], held in [isDistracted] too),
    React's bookkeeping of the timer effect ([cleanup]: its last run returned
    a cleanup function), and the browser ([listening]: the
    ['visibilitychange'] listener is registered; [intervals]: the interval
    timers that have not been cleared; [nextTimerId]: the handle
    [setInterval] returns next; [windows]).  A handle returned by
    [setInterval] is greater than zero, so [if (timerIntervalRef.current)]
    asks whether the cell holds a handle. *)
Record App := mkApp {
  tasks : list Task;
  timedTaskId : option string;
  isDistracted : bool;
  widgetError : option string;
  pipWindowRef : option WinRef;
  timerIntervalRef : option positive;
  cleanup : bool;
  listening : bool;
  intervals : gmap positive Closure;
  nextTimerId : positive;
  windows : Windows
}.

Definition setTasks (f : list Task -> list Task) (s : App) : App :=
  mkApp (f (tasks s)) (timedTaskId s) (isDistracted s) (widgetError s)
    (pipWindowRef s) (timerIntervalRef s) (cleanup s) (listening s)
    (intervals s) (nextTimerId s) (windows s).

Definition setTimedTaskId (v : option string) (s : App) : App :=
  mkApp (tasks s) v (isDistracted s) (widgetError s)
    (pipWindowRef s) (timerIntervalRef s) (cleanup s) (listening s)
    (intervals s) (nextTimerId s) (windows s).

Definition setIsDistracted (v : bool) (s : App) : App :=
  mkApp (tasks s) (timedTaskId s) v (widgetError s)
    (pipWindowRef s) (timerIntervalRef s) (cleanup s) (listening s)
    (intervals s) (nextTimerId s) (windows s).

Definition setWidgetError (v : option string) (s : App) : App :=
  mkApp (tasks s) (timedTaskId s) (isDistracted s) v
    (pipWindowRef s) (timerIntervalRef s) (cleanup s) (listening s)
    (intervals s) (nextTimerId s) (windows s).

Definition setPipWindowRef (v : option WinRef) (s : App) : App :=
  mkApp (tasks s) (timedTaskId s) (isDistracted s) (widgetError s)
    v (timerIntervalRef s) (cleanup s) (listening s)
    (intervals s) (nextTimerId s) (windows s).

Definition setTimerIntervalRef (v : option positive) (s : App) : App :=
  mkApp (tasks s) (timedTaskId s) (isDistracted s) (widgetError s)
    (pipWindowRef s) v (cleanup s) (listening s)
    (intervals s) (nextTimerId s) (windows s).

Definition setCleanup (v : bool) (s : App) : App :=
  mkApp (tasks s) (timedTaskId s) (isDistracted s) (widgetError s)
    (pipWindowRef s) (timerIntervalRef s) v (listening s)
    (intervals s) (nextTimerId s) (windows s).

Definition setListening (v : bool) (s : App) : App :=
  mkApp (tasks s) (timedTaskId s) (isDistracted s) (widgetError s)
    (pipWindowRef s) (timerIntervalRef s) (cleanup s) v
    (intervals s) (nextTimerId s) (windows s).

Definition setWindows (f : Windows -> Windows) (s : App) : App :=
  mkApp (tasks s) (timedTaskId s) (isDistracted s) (widgetError s)
    (pipWindowRef s) (timerIntervalRef s) (cleanup s) (listening s)
    (intervals s) (nextTimerId s) (f (windows s)).

(** [clearInterval(h)]. *)
Definition clearInterval (h : positive) (s : App) : App :=
  mkApp (tasks s) (timedTaskId s) (isDistracted s) (widgetError s)
    (pipWindowRef s) (timerIntervalRef s) (cleanup s) (listening s)
    (delete h (intervals s)) (nextTimerId s) (windows s).

(** [window.setInterval(c, ...)]: a new live timer and its handle. *)
Definition setInterval (c : Closure) (s : App) : positive * App :=
  (nextTimerId s,
   mkApp (tasks s) (timedTaskId s) (isDistracted s) (widgetError s)
     (pipWindowRef s) (timerIntervalRef s) (cleanup s) (listening s)
     (<[nextTimerId s := c]> (intervals s)) (Pos.succ (nextTimerId s)) (windows s)).

(** [w.close()] on the window a reference points to. *)
Definition closeWindow (w : WinRef) (s : App) : App :=
  setWindows (fun ws => upd w (close (ws w)) ws) s.

(** The component as first mounted. *)
Definition initial : App :=
  mkApp [] None false None None None false false ∅ 1%positive
    (fun _ => mkWindow false (mkDocument ∅ false)).

(** No timer session: no timed task, no window handle, no interval handle. *)
Definition Idle (s : App) : Prop :=
  timedTaskId s = None /\ pipWindowRef s = None /\ timerIntervalRef s = None.

(** ** What the three versions share *)

(** [array.map(f)] for an [f] that also writes to the windows. *)
Fixpoint mapSt {S A B : Type} (f : A -> S -> B * S) (l : list A) (s : S) : list B * S :=
  match l with
  | [] => ([], s)
  | a :: l' =>
      let '(b, s1) := f a s in
      let '(bs, s2) := mapSt f l' s1 in
      (b :: bs, s2)
  end.

(** [tasks.find(t => t.id === taskId)]. *)
Definition findTask (taskId : string) (ts : list Task) : option Task :=
  List.find (fun t => String.eqb (id t) taskId) ts.

(** A name the HTML parser takes for text as it stands, in an element and
    in a quoted attribute: no control character, and none of [<], [&] and
    the double quote. *)
Definition plainChar (c : ascii) : bool :=
  (32 <=? nat_of_ascii c)%nat &&
  negb (Ascii.eqb c "<") && negb (Ascii.eqb c "&") && negb (Ascii.eqb c "034").

Fixpoint plainText (s : string) : bool :=
  match s with
  | EmptyString => true
  | String c s' => plainChar c && plainText s'
  end.

(** The timer markup written into the window's body by
    [body.innerHTML = `...${task.name}...${formatTime(task.timeSpent)}...`]:
    the elements [task-name], [timer-display], [distraction-label] (hidden)
    and [distraction-time], the last one inside the label.  The name is put
    into the markup as it is and goes through the HTML parser: this is the
    document for a name that is [plainText].  What the parser makes of
    any other name (other text, or elements of its own, which can carry the
    ids of the timer) is not modelled, and what is stated about the content
    of a window is stated for plain names. *)
Definition timerView (task : Task) : gmap string Element :=
  <["task-name" := mkElement (name task) ""]>
  (<["timer-display" := mkElement (formatTime (timeSpent task)) ""]>
  (<["distraction-label" := mkElement "Distraction: 00:00:00" "none"]>
  (<["distraction-time" := mkElement "00:00:00" ""]> ∅))).

(** The patch of the display made inside the interval callback:
<<
  const timerDisplay = doc.getElementById('timer-display');
  if (timerDisplay) timerDisplay.textContent = formatTime(newTimeSpent);
  const distractionLabel = doc.getElementById('distraction-label');
  const distractionTime = doc.getElementById('distraction-time');
  if (distractionLabel && distractionTime) {
    distractionLabel.style.display = newDistractionTime > 0 ? 'block' : 'none';
    distractionTime.textContent = formatTime(newDistractionTime);
  }
>>
    In the markup of [timerView] the element [distraction-time] is a [span]
    inside [distraction-label], after the text [Distraction: ]: what is
    written into the span is part of the label's [textContent] too. *)
Definition patchDisplay (newTimeSpent newDistractionTime : Z) (d : Document) : Document :=
  let d1 :=
    match getElementById d "timer-display" with
    | Some timerDisplay =>
        setElement "timer-display"
          (mkElement (formatTime newTimeSpent) (display timerDisplay)) d
    | None => d
    end in
  match getElementById d1 "distraction-label", getElementById d1 "distraction-time" with
  | Some distractionLabel, Some distractionTimeEl =>
      setElement "distraction-time"
        (mkElement (formatTime newDistractionTime) (display distractionTimeEl))
        (setElement "distraction-label"
           (mkElement (String.app "Distraction: " (formatTime newDistractionTime))
              (if 0 <? newDistractionTime then "block" else "none")) d1)
  | _, _ => d1
  end.

Definition patchWindow (newTimeSpent newDistractionTime : Z) (w : Window) : Window :=
  mkWindow (closed w) (patchDisplay newTimeSpent newDistractionTime (document w)).

(** [addTask], [src/index.tsx] lines 113-122 and 640-649,
    [src/unnamed/part_000] lines 104-113.  [now] is [Date.now()]; the fields
    of the form are the four arguments after it. *)
Definition addTask (now : Z) (name : string) (impact effort : Z) (deadline : string)
    (s : App) : App :=
  setTasks (fun prevTasks =>
    prevTasks ++ [mkTask (String.app "task-" (toString now)) name impact effort deadline
                    todo 0 0]) s.

(** ** [Widget]: [src/index.tsx], lines 1-532 *)

Module Widget.

(** [handleStopTimer], lines 155-165. *)
Definition handleStopTimer (s : App) : App :=
  let s1 :=
    match timerIntervalRef s with
    | Some h => setTimerIntervalRef None (clearInterval h s)
    | None => s
    end in
  let s2 :=
    match pipWindowRef s1 with
    | Some w => if negb (closed (windows s1 w)) then closeWindow w s1 else s1
    | None => s1
    end in
  setTimedTaskId None (setPipWindowRef None s2).

(** [renderWidgetContent], lines 167-216.  The list view has no element with
    an [id]. *)
Definition renderWidgetContent (s : App) : App :=
  match pipWindowRef s with
  | None => s
  | Some w =>
      if closed (windows s w) then s
      else
        let blank := mkDocument ∅ (distraction (document (windows s w))) in
        let content :=
          if truthy (timedTaskId s) then
            match timedTaskId s with
            | Some taskId =>
                match findTask taskId (tasks s) with
                | Some task => mkDocument (timerView task) (distraction blank)
                | None => blank
                end
            | None => blank
            end
          else blank in
        setWindows (upd w (mkWindow (closed (windows s w)) content)) s
  end.

(** The function mapped over the tasks by the interval callback,
    lines 288-307. *)
Definition tickTask (timedTaskId : string) (isDistracted : bool)
    (pipWindowRef : option WinRef) (t : Task) (ws : Windows) : Task * Windows :=
  if String.eqb (id t) timedTaskId then
    let newTimeSpent := if isDistracted then timeSpent t else timeSpent t + 1 in
    let newDistractionTime :=
      if isDistracted then distractionTime t + 1 else distractionTime t in
    let ws' :=
      match pipWindowRef with
      | Some w =>
          if negb (closed (ws w))
          then upd w (patchWindow newTimeSpent newDistractionTime (ws w)) ws
          else ws
      | None => ws
      end in
    (mkTask (id t) (name t) (impact t) (effort t) (deadline t) (status t)
       newTimeSpent newDistractionTime, ws')
  else (t, ws).

(** The interval callback, lines 286-309: [setTasks(currentTasks => ...)]. *)
Definition intervalCallback (timedTaskId : string) (isDistracted : bool) (s : App) : App :=
  let '(ts, ws) :=
    mapSt (tickTask timedTaskId isDistracted (pipWindowRef s)) (tasks s) (windows s) in
  setWindows (fun _ => ws) (setTasks (fun _ => ts) s).

(** The effect of lines 282-316, rerun when [timedTaskId] or [isDistracted]
    changed: the cleanup returned by its last run, then its body. *)
Definition timerEffect (s : App) : App :=
  let s1 :=
    if cleanup s then
      match timerIntervalRef s with
      | Some h => clearInterval h s
      | None => s
      end
    else s in
  match timedTaskId s1 with
  | Some taskId =>
      if truthy (Some taskId) then
        let '(h, s2) := setInterval (TickOfState taskId (isDistracted s1)) s1 in
        setCleanup true (setTimerIntervalRef (Some h) s2)
      else setCleanup false s1
  | None => setCleanup false s1
  end.

(** [handleVisibilityChange], lines 320-326; [hidden] is
    [document.visibilityState === 'hidden']. *)
Definition handleVisibilityChange (hidden : bool) (s : App) : App :=
  let s1 := setIsDistracted hidden s in
  match pipWindowRef s1 with
  | Some w =>
      if negb (closed (windows s1 w))
      then setWindows (fun ws =>
             upd w (mkWindow (closed (ws w)) (toggleDistraction hidden (document (ws w)))) ws) s1
      else s1
  | None => s1
  end.

(** The callback of [checkPipClosedInterval], lines 331-335. *)
Definition checkPipClosed (s : App) : App :=
  match pipWindowRef s with
  | Some w => if closed (windows s w) then handleStopTimer s else s
  | None => s
  end.

(** [handleOpenWidget], lines 225-279; [hidden] is the visibility of the page
    when the window has been handed out. *)
Definition handleOpenWidget (acq : Acquisition) (hidden : bool) (s : App) : App * list Output :=
  let focused :=
    match pipWindowRef s with
    | Some w => negb (closed (windows s w))
    | None => false
    end in
  if focused then (s, [])
  else if truthy (timedTaskId s) then
    (setWidgetError
       (Some "A timer is already active. Please stop it before opening a new widget.") s, [])
  else
    match acq with
    | Unsupported =>
        (setWidgetError
           (Some "Your browser does not support the Picture-in-Picture API required for the focus widget.") s, [])
    | Rejected _ =>
        (setWidgetError
           (Some "Could not open focus widget. This feature may be blocked by your browser or another widget may be open.")
           (setWidgetError None s),
         [consoleError "Failed to open PiP window:"])
    | Granted pipWindow =>
        let s1 := setPipWindowRef (Some pipWindow) (setWidgetError None s) in
        (setIsDistracted hidden (renderWidgetContent s1), [])
    end.

(** What React runs after a handler: the effect of lines 219-222 (rerun when
    [timedTaskId], [tasks] or [sortedTasks] changed) and the timer effect. *)
Definition afterTimedTaskId (prev : option string) (s : App) : App :=
  if decide (prev = timedTaskId s) then s else timerEffect (renderWidgetContent s).

Definition afterIsDistracted (prev : bool) (s : App) : App :=
  if Bool.eqb prev (isDistracted s) then s else timerEffect s.

(** The file read by [handleFileChange] is accepted, lines 376-380. *)
Definition importable (importedTasks : list Task) : bool :=
  match importedTasks with
  | [] => true
  | t :: _ => negb (String.eqb (id t) "")
  end.

(** What can happen to the mounted component.  The widget's buttons are not
    part of the document model, so [ClickStart] is allowed in every state,
    as the handler [() => setTimedTaskId(task.id)] of line 204 is.  A new
    task list ([AddTask], [Import], [Load]) makes a new
    [renderWidgetContent], which the effect of lines 219-222 runs.  [Load]
    is the effect of lines 93-102, which React runs when the component
    mounts; here it is allowed at any time. *)
Inductive Event :=
| Pulse (h : positive)                       (* the browser fires interval [h] *)
| Pagehide                                   (* ['pagehide'] on the widget window *)
| Poll                                       (* [checkPipClosedInterval] fires *)
| WindowClosed (w : WinRef)                  (* the browser closes window [w] *)
| VisibilityChange (hidden : bool)           (* ['visibilitychange'] on the page *)
| OpenWidget (acq : Acquisition) (hidden : bool)  (* "Open Focus Widget" *)
| ClickStart (taskId : string)               (* a "Start" button of the widget *)
| Import (importedTasks : list Task)         (* a confirmed import *)
| AddTask (now : Z) (name : string) (impact effort : Z) (deadline : string)
                                             (* the task form is submitted *)
| Load (savedTasks : list Task).             (* the tasks saved in [localStorage] *)

Definition step (e : Event) (s : App) : App :=
  match e with
  | Pulse h =>
      match intervals s !! h with
      | Some (TickOfState taskId d) => renderWidgetContent (intervalCallback taskId d s)
      | _ => s
      end
  | Pagehide => afterTimedTaskId (timedTaskId s) (handleStopTimer s)
  | Poll => afterTimedTaskId (timedTaskId s) (checkPipClosed s)
  | WindowClosed w => closeWindow w s
  | VisibilityChange hidden =>
      afterIsDistracted (isDistracted s) (handleVisibilityChange hidden s)
  | OpenWidget acq hidden =>
      afterIsDistracted (isDistracted s) (fst (handleOpenWidget acq hidden s))
  | ClickStart taskId =>
      afterTimedTaskId (timedTaskId s) (setTimedTaskId (Some taskId) s)
  | Import importedTasks =>
      if importable importedTasks
      then renderWidgetContent (setTasks (fun _ => importedTasks) s)
      else s
  | AddTask now name impact effort deadline =>
      renderWidgetContent (addTask now name impact effort deadline s)
  | Load savedTasks => renderWidgetContent (setTasks (fun _ => savedTasks) s)
  end.

Definition run (es : list Event) (s : App) : App :=
  fold_left (fun s e => step e s) es s.

(** A run of interval callbacks of a session that times [timedTaskId], one
    per entry of [ds], the entry being [isDistracted] at that tick. *)
Definition ticks (timedTaskId : string) (ds : list bool) (s : App) : App :=
  fold_left (fun s d => intervalCallback timedTaskId d s) ds s.

End Widget.

(** ** The task list outside the timer *)

(** What [reader.onload] of [handleFileChange] finds: no file was chosen;
    the result is not a string; [JSON.parse] throws (with [message]); the
    value parsed is not an array; or it is an array, read as tasks. *)
Inductive FileResult :=
| NoFile
| Unreadable
| Unparsable (message : string)
| NotAnArray
| TaskArray (importedTasks : list Task).

(** The report of the [catch] of [handleFileChange]. *)
Definition importFailure (message : string) : list Output :=
  [consoleError "Failed to import tasks:";
   alert (String.app
     "Failed to import tasks. Please make sure it's a valid JSON file. Error: " message)].

(** [handleFileChange], [src/index.tsx] lines 365-394 and 825-856, the
    handler by itself; [confirmed] is the answer to [confirm(...)].  In
    [Widget] the new list is then rendered into the window by the effect of
    lines 219-222: that is [Widget.step (Widget.Import importedTasks)]. *)
Definition handleFileChange (r : FileResult) (confirmed : bool) (s : App)
    : App * list Output :=
  match r with
  | NoFile => (s, [])
  | Unreadable => (s, importFailure "File could not be read.")
  | Unparsable message => (s, importFailure message)
  | NotAnArray => (s, importFailure "Invalid task file format.")
  | TaskArray importedTasks =>
      if Widget.importable importedTasks then
        if confirmed then (setTasks (fun _ => importedTasks) s, []) else (s, [])
      else (s, importFailure "Invalid task file format.")
  end.

(** ** [Part000]: [src/unnamed/part_000] *)

Module Part000.

(** [handleStartTimer], lines 147-153. *)
Definition handleStartTimer (taskId : string) (s : App) : App * list Output :=
  if truthy (timedTaskId s) then
    (s, [alert "Another timer is already running. Please stop it first."])
  else (setTimedTaskId (Some taskId) s, []).

(** [handleStopTimer], lines 155-165. *)
Definition handleStopTimer (s : App) : App :=
  let s1 :=
    match timerIntervalRef s with
    | Some h => setTimerIntervalRef None (clearInterval h s)
    | None => s
    end in
  let s2 :=
    match pipWindowRef s1 with
    | Some w => setPipWindowRef None (closeWindow w s1)
    | None => s1
    end in
  setTimedTaskId None s2.

(** The function mapped over the tasks by the interval callback,
    lines 216-234; [isDistracted] is [isDistractedRef.current] and
    [pipWindow] the constant of [openPipWindow]. *)
Definition tickTask (timedTaskId : string) (isDistracted : bool)
    (pipWindow : WinRef) (t : Task) (ws : Windows) : Task * Windows :=
  if String.eqb (id t) timedTaskId then
    let newTimeSpent := if isDistracted then timeSpent t else timeSpent t + 1 in
    let newDistractionTime :=
      if isDistracted then distractionTime t + 1 else distractionTime t in
    (mkTask (id t) (name t) (impact t) (effort t) (deadline t) (status t)
       newTimeSpent newDistractionTime,
     upd pipWindow (patchWindow newTimeSpent newDistractionTime (ws pipWindow)) ws)
  else (t, ws).

(** The interval callback, lines 214-236. *)
Definition intervalCallback (timedTaskId : string) (pipWindow : WinRef) (s : App) : App :=
  let '(ts, ws) :=
    mapSt (tickTask timedTaskId (isDistracted s) pipWindow) (tasks s) (windows s) in
  setWindows (fun _ => ws) (setTasks (fun _ => ts) s).

(** [openPipWindow], lines 176-242, for the [timedTaskId] and [task] of the
    render that ran the effect. *)
Definition openPipWindow (timedTaskId : string) (task : Task) (acq : Acquisition)
    (s : App) : App * list Output :=
  match acq with
  | Unsupported =>
      (setTimedTaskId None s,
       [alert "Picture-in-Picture is not supported by your browser."])
  | Rejected _ =>
      (setTimedTaskId None s, [consoleError "Failed to open PiP window:"])
  | Granted pipWindow =>
      let s1 := setPipWindowRef (Some pipWindow) s in
      let s2 :=
        setWindows (fun ws =>
          upd pipWindow
            (mkWindow (closed (ws pipWindow))
               (mkDocument (timerView task) (distraction (document (ws pipWindow))))) ws) s1 in
      let '(h, s3) := setInterval (TickOfRef timedTaskId pipWindow) s2 in
      (setTimerIntervalRef (Some h) s3, [])
  end.

(** The body of the effect of lines 168-259, run by the render whose
    [timedTaskId] is [rendered]. *)
Definition effectBody (rendered : option string) (acq : Acquisition) (s : App)
    : App * list Output :=
  match rendered with
  | Some taskId =>
      if truthy (Some taskId) then
        match findTask taskId (tasks s) with
        | Some task =>
            let '(s1, out) := openPipWindow taskId task acq s in
            (setCleanup true (setListening true s1), out)
        | None => (setCleanup false s, [])
        end
      else (setCleanup false s, [])
  | None => (setCleanup false s, [])
  end.

(** The cleanup the effect returns, lines 255-258. *)
Definition effectCleanup (s : App) : App :=
  handleStopTimer (setListening false s).

(** A rerun of the effect after [timedTaskId] or [tasks] changed: the
    cleanup of the last run, if it returned one, then the body. *)
Definition effect (acq : Acquisition) (s : App) : App * list Output :=
  let rendered := timedTaskId s in
  effectBody rendered acq (if cleanup s then effectCleanup s else s).

(** "Start Timer" on a task: the handler, then the renders it causes.  The
    effect runs when the handler changed [timedTaskId], and once more when
    its own run changed it back. *)
Definition start (taskId : string) (acq : Acquisition) (s : App) : App * list Output :=
  let '(s1, o1) := handleStartTimer taskId s in
  if decide (timedTaskId s1 = timedTaskId s) then (s1, o1)
  else
    let '(s2, o2) := effect acq s1 in
    if decide (timedTaskId s2 = timedTaskId s1) then (s2, o1 ++ o2)
    else
      let '(s3, o3) := effect acq s2 in
      (s3, o1 ++ o2 ++ o3).

(** A run of interval callbacks of a session that times [timedTaskId], one
    per entry of [ds], the entry being [isDistractedRef.current] at that
    tick (written by [handleVisibilityChange], lines 246-251). *)
Definition ticks (timedTaskId : string) (pipWindow : WinRef) (ds : list bool) (s : App) : App :=
  fold_left (fun s d => intervalCallback timedTaskId pipWindow (setIsDistracted d s)) ds s.

(** [updateTask], lines 115-119. *)
Definition updateTask (updatedTask : Task) (s : App) : App :=
  setTasks (fun prevTasks =>
    map (fun task => if String.eqb (id task) (id updatedTask) then updatedTask else task)
      prevTasks) s.

(** [onDrop], lines 265-272, the handler by itself; [taskId] is what
    [onDragStart] put into the drag data.  A drop that finds its task makes a
    new task list, and the effect of lines 168-259, which depends on [tasks],
    runs again after it: that is [effect], whose cleanup stops the timer. *)
Definition onDrop (taskId : string) (newStatus : Status) (s : App) : App :=
  match findTask taskId (tasks s) with
  | Some draggedTask =>
      updateTask
        (mkTask (id draggedTask) (name draggedTask) (impact draggedTask)
           (effort draggedTask) (deadline draggedTask) newStatus
           (timeSpent draggedTask) (distractionTime draggedTask)) s
  | None => s
  end.

Definition Status_eqb (a b : Status) : bool :=
  match a, b with
  | todo, todo | inprogress, inprogress | done, done => true
  | _, _ => false
  end.

(** The cards of a column of the board, line 328:
    [tasks.filter(t => t.status === status)]. *)
Definition kanbanCards (column : Status) (ts : list Task) : list Task :=
  List.filter (fun t => Status_eqb (status t) column) ts.

(** The component with its [isLoading] cell. *)
Record Page := mkPage {
  app : App;
  isLoading : bool
}.

(** How the request to the model and the parse of its answer end: something
    throws, or an array of tasks is there. *)
Inductive Response :=
| Failed
| Prioritized (prioritizedTasks : list Task).

(** [handlePrioritize], lines 121-145, up to the [await]: [setIsLoading(true)];
    the [tasks] of the render stay in the closure of the handler. *)
Definition prioritizeClicked (p : Page) : Page * list Task :=
  (mkPage (app p) true, tasks (app p)).

(** [handlePrioritize] after the [await], for the [tasks] of its closure. *)
Definition prioritizeSettled (closureTasks : list Task) (r : Response) (p : Page)
    : Page * list Output :=
  match r with
  | Prioritized prioritizedTasks =>
      let doneTasks := List.filter (fun t => Status_eqb (status t) done) closureTasks in
      (mkPage (setTasks (fun _ => prioritizedTasks ++ doneTasks) (app p)) false, [])
  | Failed =>
      (mkPage (app p) false,
       [consoleError "Error prioritizing tasks with Gemini:";
        alert "Failed to prioritize tasks. Please check your API key and try again."])
  end.

(** [handlePrioritize] as a whole, nothing else happening while the request
    is under way. *)
Definition handlePrioritize (r : Response) (p : Page) : Page * list Output :=
  let '(p1, closureTasks) := prioritizeClicked p in
  prioritizeSettled closureTasks r p1.

End Part000.

(** ** [Direct]: [src/index.tsx], lines 533-979 *)

Module Direct.

(** [handleStopTimer], lines 685-695. *)
Definition handleStopTimer (s : App) : App :=
  let s1 :=
    match timerIntervalRef s with
    | Some h => setTimerIntervalRef None (clearInterval h s)
    | None => s
    end in
  let s2 :=
    match pipWindowRef s1 with
    | Some w => setPipWindowRef None (closeWindow w s1)
    | None => s1
    end in
  setTimedTaskId None s2.

(** The message built in the [catch] of [handleStartTimer], lines 746-751. *)
Definition failureMessage (securityError : bool) : string :=
  let nl := String "010"%char (String "010"%char EmptyString) in
  String.app "Failed to open the timer window."
    (String.app nl
       (if securityError then
          "This is likely due to browser security restrictions when running in an embedded window (like a code playground). Please try opening the app in its own browser tab to use this feature."
        else
          "This feature might not be supported by your browser or requires a direct user click.")).

(** [handleStartTimer], lines 697-755. *)
Definition handleStartTimer (taskId : string) (acq : Acquisition) (s : App)
    : App * list Output :=
  if truthy (timedTaskId s) then
    (s, [alert "Another timer is already running. Please stop it first."])
  else
    match findTask taskId (tasks s) with
    | None => (s, [])
    | Some task =>
        match acq with
        | Unsupported =>
            (s, [alert "Picture-in-Picture is not supported by your browser."])
        | Rejected securityError =>
            (setTimedTaskId None s,
             [consoleError "Failed to open PiP window:";
              alert (failureMessage securityError)])
        | Granted pipWindow =>
            let s1 := setPipWindowRef (Some pipWindow) s in
            let s2 :=
              setWindows (fun ws =>
                upd pipWindow
                  (mkWindow (closed (ws pipWindow))
                     (mkDocument (timerView task)
                        (distraction (document (ws pipWindow))))) ws) s1 in
            (setTimedTaskId (Some taskId) s2, [])
        end
    end.

(** The function mapped over the tasks by the interval callback,
    lines 767-785: the text of [Part000.tickTask]. *)
Definition tickTask := Part000.tickTask.

(** The interval callback, lines 765-787. *)
Definition intervalCallback (timedTaskId : string) (pipWindow : WinRef) (s : App) : App :=
  let '(ts, ws) :=
    mapSt (tickTask timedTaskId (isDistracted s) pipWindow) (tasks s) (windows s) in
  setWindows (fun _ => ws) (setTasks (fun _ => ts) s).

(** The body of the effect of lines 758-802, run by the render whose
    [timedTaskId] is [rendered]. *)
Definition effectBody (rendered : option string) (s : App) : App :=
  match rendered, pipWindowRef s with
  | Some taskId, Some pipWindow =>
      if truthy (Some taskId) then
        let '(h, s1) := setInterval (TickOfRef taskId pipWindow) s in
        setCleanup true (setListening true (setTimerIntervalRef (Some h) s1))
      else setCleanup false s
  | _, _ => setCleanup false s
  end.

(** The cleanup the effect returns, lines 798-801. *)
Definition effectCleanup (s : App) : App :=
  handleStopTimer (setListening false s).

(** [handleVisibilityChange], lines 789-794. *)
Definition handleVisibilityChange (hidden : bool) (s : App) : App :=
  let s1 := setIsDistracted hidden s in
  match pipWindowRef s1 with
  | Some w =>
      setWindows (fun ws =>
        upd w (mkWindow (closed (ws w)) (toggleDistraction hidden (document (ws w)))) ws) s1
  | None => s1
  end.

(** A rerun of the effect after [timedTaskId] changed: the cleanup of the
    last run, if it returned one, then the body. *)
Definition effect (s : App) : App :=
  let rendered := timedTaskId s in
  effectBody rendered (if cleanup s then effectCleanup s else s).

(** What React runs after a handler: the effect when the handler changed
    [timedTaskId], and once more when the cleanup of that run changed it
    again. *)
Definition afterTimedTaskId (prev : option string) (s : App) : App :=
  if decide (prev = timedTaskId s) then s
  else
    let s1 := effect s in
    if decide (timedTaskId s1 = timedTaskId s) then s1 else effect s1.

(** What can happen to the mounted component.  A start is one step: the
    request for the window has ended before the next event.  The
    ['visibilitychange'] listener exists between the body of the effect and
    its cleanup. *)
Inductive Event :=
| Pulse (h : positive)                              (* the browser fires interval [h] *)
| Pagehide                                          (* ['pagehide'] on a timer window *)
| VisibilityChange (hidden : bool)                  (* ['visibilitychange'] on the page *)
| StartTimer (taskId : string) (acq : Acquisition)  (* "Start Timer" on a task *)
| AddTask (now : Z) (name : string) (impact effort : Z) (deadline : string)
| ImportFile (r : FileResult) (confirmed : bool).

Definition step (e : Event) (s : App) : App :=
  match e with
  | Pulse h =>
      match intervals s !! h with
      | Some (TickOfRef taskId pipWindow) => intervalCallback taskId pipWindow s
      | _ => s
      end
  | Pagehide => afterTimedTaskId (timedTaskId s) (handleStopTimer s)
  | VisibilityChange hidden =>
      if listening s then handleVisibilityChange hidden s else s
  | StartTimer taskId acq =>
      afterTimedTaskId (timedTaskId s) (fst (handleStartTimer taskId acq s))
  | AddTask now name impact effort deadline => addTask now name impact effort deadline s
  | ImportFile r confirmed => fst (handleFileChange r confirmed s)
  end.

Definition run (es : list Event) (s : App) : App :=
  fold_left (fun s e => step e s) es s.

End Direct.

(** ** Notions used by the statements *)

(** The entry the interval callbacks return for a task [t]: [t] itself, or
    [t] with one more second in the counter chosen by the flag. *)
Definition creditSecond (timedTaskId : string) (isDistracted : bool) (t : Task) : Task :=
  if String.eqb (id t) timedTaskId then
    mkTask (id t) (name t) (impact t) (effort t) (deadline t) (status t)
      (if isDistracted then timeSpent t else timeSpent t + 1)
      (if isDistracted then distractionTime t + 1 else distractionTime t)
  else t.

(** How many of the flags [ds] equal [b]. *)
Definition flagged (b : bool) (ds : list bool) : Z :=
  Z.of_nat (length (List.filter (fun d => Bool.eqb d b) ds)).

(** [t'] is [t] after the ticks [ds]: every second went to exactly one
    counter, chosen by the flag of its tick. *)
Definition credited (ds : list bool) (t t' : Task) : Prop :=
  timeSpent t' = timeSpent t + flagged false ds /\
  distractionTime t' = distractionTime t + flagged true ds /\
  timeSpent t' + distractionTime t' =
    timeSpent t + distractionTime t + Z.of_nat (length ds).

(** [t'] differs from [t] in its two counters at most. *)
Definition sameButCounters (t t' : Task) : Prop :=
  id t' = id t /\ name t' = name t /\ impact t' = impact t /\
  effort t' = effort t /\ deadline t' = deadline t /\ status t' = status t.

(** What a window displays: its document while it is open, nothing once
    it is closed. *)
Definition shown (w : Window) : option Document :=
  if closed w then None else Some (document w).

(** None of the elements the interval callback writes can be written: there
    is no [timer-display], and [distraction-label] or [distraction-time] is
    missing. *)
Definition lacksDisplay (d : Document) : Prop :=
  getElementById d "timer-display" = None /\
  (getElementById d "distraction-label" = None \/
   getElementById d "distraction-time" = None).

(** The handle [pipWindowRef] is stale: [null], or a closed window. *)
Definition stale (s : App) : Prop :=
  match pipWindowRef s with
  | Some w => closed (windows s w) = true
  | None => True
  end.

(** [s'] is [s] with its session torn down: no timed task and no handles
    left, the interval [s] held cleared, the window [s] held closed. *)
Definition tornDown (s s' : App) : Prop :=
  Idle s' /\
  (forall h, timerIntervalRef s = Some h -> intervals s' !! h = None) /\
  (forall w, pipWindowRef s = Some w -> closed (windows s' w) = true).

(** The acquisition of the window failed. *)
Definition failed (acq : Acquisition) : Prop :=
  match acq with
  | Granted _ => False
  | _ => True
  end.

(** What the user is told when the acquisition fails.  [Direct] shows an
    alert in both cases, after a line on the console for a rejection;
    [Part000] shows the alert when the feature is missing and writes a
    rejection to the console only. *)
Definition notSupported : Output :=
  alert "Picture-in-Picture is not supported by your browser.".

Definition directReport (acq : Acquisition) : list Output :=
  match acq with
  | Unsupported => [notSupported]
  | Rejected securityError =>
      [consoleError "Failed to open PiP window:"; alert (Direct.failureMessage securityError)]
  | Granted _ => []
  end.


(** The alert shown when a timer is started while another one runs. *)
Definition alreadyRunning : list Output :=
  [alert "Another timer is already running. Please stop it first."].

(** [Widget]: the only interval that can be live is the one whose handle
    [timerIntervalRef] holds, and the timer effect owes its cleanup. *)
Definition ownsIntervals (s : App) : Prop :=
  forall h, is_Some (intervals s !! h) -> timerIntervalRef s = Some h /\ cleanup s = true.

(** [s'] has the interval timers of [s]: the live intervals, the handle held
    and the state of the timer effect. *)
Definition sameTimers (s s' : App) : Prop :=
  intervals s' = intervals s /\ timerIntervalRef s' = timerIntervalRef s /\
  cleanup s' = cleanup s.

(** The state [Widget] reaches from its first mount by the events [es]. *)
Definition reached (es : list Widget.Event) : App := Widget.run es initial.

(** [Widget]: what a live interval closes over is the state of now: its task
    is the timed task, which is not the empty string, and its flag is
    [isDistracted]. *)
Definition freshClosures (s : App) : Prop :=
  forall h c, intervals s !! h = Some c ->
    exists T, c = TickOfState T (isDistracted s) /\ timedTaskId s = Some T /\ T <> "".

(** [s'] has the live intervals, the timed task and the flag of [s]. *)
Definition sameClock (s s' : App) : Prop :=
  intervals s' = intervals s /\ timedTaskId s' = timedTaskId s /\
  isDistracted s' = isDistracted s.

(** The state [Direct] reaches from its first mount by the events [es]. *)
Definition reachedDirect (es : list Direct.Event) : App := Direct.run es initial.

(** [Direct]: the bookkeeping of the effect agrees with the session.  A live
    interval is the one [timerIntervalRef] holds; the effect owes its cleanup
    and the ['visibilitychange'] listener is there exactly while a task is
    timed through an interval. *)
Definition directSession (s : App) : Prop :=
  ownsIntervals s /\
  listening s = cleanup s /\
  (cleanup s = true ->
   truthy (timedTaskId s) = true /\ is_Some (pipWindowRef s) /\ is_Some (timerIntervalRef s)).



(** ** Sample data *)

(** A task as [addTask] creates it, and one that has been timed before. *)
Definition freshTask : Task := mkTask "task-1" "Write report" 5 5 "2025-01-01" todo 0 0.
Definition timedTask : Task := mkTask "task-2" "Review" 8 3 "2025-01-02" inprogress 5 0.

(** The mounted component holding the two tasks, no timer running. *)
Definition twoTasks : App := setTasks (fun _ => [freshTask; timedTask]) initial.

(** [Widget] timing [task-1]: the widget was opened, then "Start" clicked. *)
Definition widgetSession : App :=
  Widget.run [Widget.OpenWidget (Granted 1%positive) false; Widget.ClickStart "task-1"] twoTasks.

(** A window that went away while the component still holds its handle; it
    has none of the timer's elements. *)
Definition goneWindow : App :=
  closeWindow 1%positive (setPipWindowRef (Some 1%positive) twoTasks).

(** A task list as [JSON.parse] of the saved tasks can bring it: the second
    task has an empty id. *)
Definition blankId : App :=
  setTasks (fun _ => [freshTask; mkTask "" "Untitled" 1 1 "2025-01-03" todo 0 0]) initial.

(** [Direct] from its first mount: a file with a task of empty id is
    imported, and "Start Timer" on that task is granted window 1.  The window
    handle is held, and [timedTaskId] is the empty string, which
    [if (timedTaskId)] takes for no timer. *)
Definition heldWindow : list Direct.Event :=
  [Direct.ImportFile (TaskArray (tasks blankId)) true;
   Direct.StartTimer "" (Granted 1%positive)].

(** [Part000] after "Start Timer" on the task whose id is empty. *)
Definition blankStarted : App := fst (Part000.start "" (Granted 1%positive) blankId).

(** [Part000] timing [task-1]: "Start Timer" was clicked and the window
    handed out. *)
Definition part000Session : App := fst (Part000.start "task-1" (Granted 1%positive) twoTasks).

(** [Widget] from its first mount: two tasks are imported, the widget is
    opened, [task-1] is started, a second goes by, and the user closes the
    window. *)
Definition closedWhileTiming : list Widget.Event :=
  [Widget.Import [freshTask; timedTask]; Widget.OpenWidget (Granted 1%positive) false;
   Widget.ClickStart "task-1"; Widget.Pulse 1%positive; Widget.WindowClosed 1%positive].

(** [Widget] timing [task-1] when an import replaces the task list by one
    without that task. *)
Definition orphaned : App := Widget.run [Widget.Import [timedTask]] widgetSession.

(** The board of [Part000] with [task-2] dropped on the [done] column. *)
Definition boardPage : Part000.Page :=
  Part000.mkPage (Part000.onDrop "task-2" done twoTasks) false.

(** [Direct] from its first mount: a task is added, its timer started and
    the page hidden while the timer runs. *)
Definition hiddenWhileTiming : list Direct.Event :=
  [Direct.AddTask 1 "Write report" 5 5 "2025-01-01";
   Direct.StartTimer "task-1" (Granted 1%positive);
   Direct.VisibilityChange true].

(** * Properties *)

(** ** The interval callback and the task list *)

Section MapSt.
Context {S A B : Type} (f : A -> S -> B * S).

Lemma mapSt_fst (g : A -> B) :
  (forall a s, fst (f a s) = g a) ->
  forall l s, fst (mapSt f l s) = map g l.
Proof.
  intros Hg l. induction l as [|a l IH]; intros s; cbn [mapSt map]; [reflexivity|].
  specialize (Hg a s). destruct (f a s) as [b s1]. specialize (IH s1).
  destruct (mapSt f l s1) as [bs s2]. cbn in *. congruence.
Qed.

(** A property of the threaded state kept by every call is kept by the map. *)
Lemma mapSt_snd (P : S -> Prop) :
  (forall a s, P s -> P (snd (f a s))) ->
  forall l s, P s -> P (snd (mapSt f l s)).
Proof.
  intros Hf l. induction l as [|a l IH]; intros s Hs; cbn [mapSt]; [exact Hs|].
  specialize (Hf a s Hs). destruct (f a s) as [b s1]. specialize (IH s1 Hf).
  destruct (mapSt f l s1) as [bs s2]. exact IH.
Qed.
End MapSt.

Lemma Widget_tickTask_fst T d pip t ws :
  fst (Widget.tickTask T d pip t ws) = creditSecond T d t.
Proof.
  unfold Widget.tickTask, creditSecond. destruct (String.eqb (id t) T); reflexivity.
Qed.

Lemma Part000_tickTask_fst T d w t ws :
  fst (Part000.tickTask T d w t ws) = creditSecond T d t.
Proof.
  unfold Part000.tickTask, creditSecond. destruct (String.eqb (id t) T); reflexivity.
Qed.

Lemma Widget_intervalCallback_tasks T d s :
  tasks (Widget.intervalCallback T d s) = map (creditSecond T d) (tasks s).
Proof.
  unfold Widget.intervalCallback.
  pose proof (mapSt_fst (Widget.tickTask T d (pipWindowRef s)) (creditSecond T d)
                (fun a ws => Widget_tickTask_fst T d _ a ws) (tasks s) (windows s)) as H.
  destruct (mapSt _ (tasks s) (windows s)) as [ts ws]. exact H.
Qed.

Lemma Part000_intervalCallback_tasks T w s :
  tasks (Part000.intervalCallback T w s) = map (creditSecond T (isDistracted s)) (tasks s).
Proof.
  unfold Part000.intervalCallback.
  pose proof (mapSt_fst (Part000.tickTask T (isDistracted s) w) (creditSecond T (isDistracted s))
                (fun a ws => Part000_tickTask_fst T _ w a ws) (tasks s) (windows s)) as H.
  destruct (mapSt _ (tasks s) (windows s)) as [ts ws]. exact H.
Qed.

Lemma Direct_intervalCallback_eq T w s :
  Direct.intervalCallback T w s = Part000.intervalCallback T w s.
Proof. reflexivity. Qed.

Lemma credited_nil t : credited [] t t.
Proof. unfold credited, flagged. cbn. lia. Qed.

Lemma credited_step T d ds t t' :
  id t = T -> credited ds (creditSecond T d t) t' -> credited (d :: ds) t t'.
Proof.
  intros Hid. unfold credited, flagged, creditSecond.
  rewrite <- Hid, String.eqb_refl. cbn [timeSpent distractionTime List.filter length].
  destruct d; cbn [Bool.eqb]; cbn [length]; lia.
Qed.

Lemma creditSecond_id T d t : id (creditSecond T d t) = id t.
Proof. unfold creditSecond. destruct (String.eqb (id t) T); reflexivity. Qed.

(** The tasks after a run of ticks, whatever else the ticks write. *)
Lemma ticks_credited (T : string) (ds : list bool) :
  forall (ts : list Task) (i : nat) (t : Task),
    ts !! i = Some t -> id t = T ->
    exists t', fold_left (fun l d => map (creditSecond T d) l) ds ts !! i = Some t' /\
               id t' = T /\ credited ds t t'.
Proof.
  induction ds as [|d ds IH]; intros ts i t Hi Hid; cbn [fold_left].
  - exists t. split; [exact Hi|]. split; [exact Hid|]. apply credited_nil.
  - destruct (IH (map (creditSecond T d) ts) i (creditSecond T d t)) as (t' & Hi' & Hid' & Hc).
    + rewrite list_lookup_fmap, Hi. reflexivity.
    + rewrite creditSecond_id. exact Hid.
    + exists t'. split; [exact Hi'|]. split; [exact Hid'|].
      apply (credited_step T); assumption.
Qed.

Lemma Widget_ticks_tasks T ds : forall s,
  tasks (Widget.ticks T ds s) = fold_left (fun l d => map (creditSecond T d) l) ds (tasks s).
Proof.
  unfold Widget.ticks. induction ds as [|d ds IH]; intros s; cbn [fold_left]; [reflexivity|].
  rewrite IH, Widget_intervalCallback_tasks. reflexivity.
Qed.

Lemma Part000_ticks_tasks T w ds : forall s,
  tasks (Part000.ticks T w ds s) = fold_left (fun l d => map (creditSecond T d) l) ds (tasks s).
Proof.
  unfold Part000.ticks. induction ds as [|d ds IH]; intros s; cbn [fold_left]; [reflexivity|].
  rewrite IH, Part000_intervalCallback_tasks. reflexivity.
Qed.

(** C1 (as amended).  While a session times task [T], each tick adds exactly
    one second to exactly one of [timeSpent] and [distractionTime] of [T]
    ([distractionTime] when the distraction flag read at that tick is true,
    [timeSpent] otherwise); after any run of ticks, [timeSpent +
    distractionTime] of [T] is its value at the start of the session plus the
    number of ticks. *)
Theorem ticks_credit_each_second (T : string) (ds : list bool) (w : WinRef)
    (s : App) (i : nat) (t : Task) :
  tasks s !! i = Some t -> id t = T ->
  (exists t', tasks (Widget.ticks T ds s) !! i = Some t' /\ id t' = T /\ credited ds t t') /\
  (exists t', tasks (Part000.ticks T w ds s) !! i = Some t' /\ id t' = T /\ credited ds t t').
Proof.
  intros Hi Hid. rewrite Widget_ticks_tasks, Part000_ticks_tasks.
  split; apply ticks_credited; assumption.
Qed.

Lemma ticks_credit_each_second_witness :
  (tasks twoTasks !! 0%nat = Some freshTask /\ id freshTask = "task-1") /\
  (exists t', tasks (Widget.ticks "task-1" [false; false; false; true; true] twoTasks) !! 0%nat = Some t' /\
              id t' = "task-1" /\ credited [false; false; false; true; true] freshTask t') /\
  (exists t', tasks (Part000.ticks "task-1" 1%positive [false; false; false; true; true] twoTasks) !! 0%nat = Some t' /\
              id t' = "task-1" /\ credited [false; false; false; true; true] freshTask t').
Proof.
  split; [split; reflexivity|].
  apply (ticks_credit_each_second "task-1" [false; false; false; true; true] 1%positive twoTasks 0 freshTask);
    reflexivity.
Defined.

(** C1 as stated fails for a task that was timed before: [task-2] starts its
    session with 5 seconds, and after one tick its counters add up to 6, not
    to the one tick processed. *)
Lemma ticks_total_counterexample :
  ~ (forall (T : string) (ds : list bool) (s : App) (i : nat) (t' : Task),
       tasks (Widget.ticks T ds s) !! i = Some t' -> id t' = T ->
       timeSpent t' + distractionTime t' = Z.of_nat (length ds)).
Proof.
  intros H.
  specialize (H "task-2" [false] twoTasks 1%nat
                (mkTask "task-2" "Review" 8 3 "2025-01-02" inprogress 6 0)
                eq_refl eq_refl).
  cbn in H. discriminate H.
Qed.

(** The scenario of the specification on [Widget]: three ticks while the page
    is visible, the page is hidden, two more ticks, the window goes away, one
    more pulse. *)
Example widget_scenario :
  let s1 := Widget.run [Widget.Pulse 1; Widget.Pulse 1; Widget.Pulse 1] widgetSession in
  let s2 := Widget.run [Widget.VisibilityChange true; Widget.Pulse 2; Widget.Pulse 2] s1 in
  let s3 := Widget.run [Widget.Pagehide; Widget.Pulse 2; Widget.Pulse 1] s2 in
  (timeSpent <$> tasks s1 !! 0%nat) = Some 3 /\ (distractionTime <$> tasks s1 !! 0%nat) = Some 0 /\
  (timeSpent <$> tasks s2 !! 0%nat) = Some 3 /\ (distractionTime <$> tasks s2 !! 0%nat) = Some 2 /\
  tasks s3 = tasks s2.
Proof. vm_compute. repeat split. Qed.

(** ** The tick is a delta keyed by the task id *)

Lemma creditSecond_frame T d t :
  sameButCounters t (creditSecond T d t) /\ (id t <> T -> creditSecond T d t = t).
Proof.
  unfold sameButCounters, creditSecond.
  destruct (String.eqb_spec (id t) T) as [Heq|Hne]; cbn; repeat split; congruence.
Qed.

(** C7.  A tick of a session that times [T] keeps the list in place, returns
    every task whose id is not [T] as it was, and changes nothing but
    [timeSpent] and [distractionTime] in a task whose id is [T]. *)
Theorem tick_changes_counters_only (T : string) (d : bool) (w : WinRef)
    (s : App) (i : nat) (t : Task) :
  tasks s !! i = Some t ->
  (exists t', tasks (Widget.intervalCallback T d s) !! i = Some t' /\
              sameButCounters t t' /\ (id t <> T -> t' = t)) /\
  (exists t', tasks (Part000.intervalCallback T w s) !! i = Some t' /\
              sameButCounters t t' /\ (id t <> T -> t' = t)) /\
  length (tasks (Widget.intervalCallback T d s)) = length (tasks s) /\
  length (tasks (Part000.intervalCallback T w s)) = length (tasks s).
Proof.
  intros Hi. rewrite Widget_intervalCallback_tasks, Part000_intervalCallback_tasks.
  rewrite !length_map, !list_lookup_fmap, Hi. cbn.
  repeat split; try (eexists; split; [reflexivity|]; apply creditSecond_frame).
Qed.

Lemma tick_changes_counters_only_witness :
  tasks (Widget.ticks "task-1" [true] twoTasks) !! 1%nat = Some timedTask /\
  ((exists t', tasks (Widget.intervalCallback "task-1" false (Widget.ticks "task-1" [true] twoTasks)) !! 1%nat = Some t' /\
              sameButCounters timedTask t' /\ (id timedTask <> "task-1" -> t' = timedTask)) /\
   (exists t', tasks (Part000.intervalCallback "task-1" 1%positive (Widget.ticks "task-1" [true] twoTasks)) !! 1%nat = Some t' /\
              sameButCounters timedTask t' /\ (id timedTask <> "task-1" -> t' = timedTask)) /\
   length (tasks (Widget.intervalCallback "task-1" false (Widget.ticks "task-1" [true] twoTasks))) =
     length (tasks (Widget.ticks "task-1" [true] twoTasks)) /\
   length (tasks (Part000.intervalCallback "task-1" 1%positive (Widget.ticks "task-1" [true] twoTasks))) =
     length (tasks (Widget.ticks "task-1" [true] twoTasks))).
Proof.
  split; [reflexivity|].
  apply (tick_changes_counters_only "task-1" false 1%positive
           (Widget.ticks "task-1" [true] twoTasks) 1 timedTask).
  reflexivity.
Defined.

(** ** The tick and the window *)

Lemma patchDisplay_lacks a b d : lacksDisplay d -> patchDisplay a b d = d.
Proof.
  intros [Hd Hl]. unfold patchDisplay. rewrite Hd.
  destruct Hl as [Hl|Hl]; rewrite Hl; [reflexivity|].
  destruct (getElementById d "distraction-label"); reflexivity.
Qed.

Lemma patchWindow_lacks a b w : lacksDisplay (document w) -> patchWindow a b w = w.
Proof.
  intros H. unfold patchWindow. rewrite (patchDisplay_lacks a b _ H).
  destruct w; reflexivity.
Qed.

Lemma shown_closed w : shown w = None <-> closed w = true.
Proof. unfold shown. destruct (closed w); split; congruence. Qed.

Lemma upd_same w v ws w' : v = ws w -> upd w v ws w' = ws w'.
Proof.
  intros ->. unfold upd. destruct (Pos.eqb_spec w' w) as [->|]; reflexivity.
Qed.

(** [Widget]: with a stale handle the callback does not touch the windows. *)
Lemma Widget_tick_stale T d s :
  stale s -> windows (Widget.intervalCallback T d s) = windows s.
Proof.
  intros Hs. unfold Widget.intervalCallback.
  pose proof (mapSt_snd (Widget.tickTask T d (pipWindowRef s)) (fun ws => ws = windows s)) as H.
  specialize (H ltac:(
    intros t ws ->; unfold Widget.tickTask, stale in *;
    destruct (String.eqb (id t) T); [|reflexivity];
    destruct (pipWindowRef s) as [w|]; [|reflexivity];
    cbn; rewrite Hs; reflexivity) (tasks s) (windows s) eq_refl).
  destruct (mapSt _ (tasks s) (windows s)) as [ts ws]. exact H.
Qed.

(** [Widget]: with the elements missing the callback leaves every window as
    it was. *)
Lemma Widget_tick_lacks T d s w :
  pipWindowRef s = Some w -> lacksDisplay (document (windows s w)) ->
  forall w', windows (Widget.intervalCallback T d s) w' = windows s w'.
Proof.
  intros Hp Hl. unfold Widget.intervalCallback.
  pose proof (mapSt_snd (Widget.tickTask T d (pipWindowRef s))
                (fun ws => forall w', ws w' = windows s w')) as H.
  specialize (H ltac:(
    intros t ws Hws w'; unfold Widget.tickTask;
    destruct (String.eqb (id t) T); [|apply Hws];
    rewrite Hp; cbn; destruct (closed (ws w)); cbn; [apply Hws|];
    rewrite upd_same; [apply Hws|];
    apply patchWindow_lacks; rewrite Hws; exact Hl) (tasks s) (windows s) (fun _ => eq_refl)).
  destruct (mapSt _ (tasks s) (windows s)) as [ts ws]. exact H.
Qed.

(** [Part000], [Direct]: the captured window being closed, the callback
    changes nothing that is displayed. *)
Lemma Part000_tick_closed T s w :
  closed (windows s w) = true ->
  forall w', shown (windows (Part000.intervalCallback T w s) w') = shown (windows s w').
Proof.
  intros Hc. unfold Part000.intervalCallback.
  pose proof (mapSt_snd (Part000.tickTask T (isDistracted s) w)
                (fun ws => forall w', shown (ws w') = shown (windows s w'))) as H.
  specialize (H ltac:(
    intros t ws Hws w'; unfold Part000.tickTask;
    destruct (String.eqb (id t) T); [|apply Hws];
    cbn; unfold upd; destruct (Pos.eqb_spec w' w) as [->|]; [|apply Hws];
    rewrite <- Hws; unfold shown, patchWindow; cbn;
    assert (closed (ws w) = true) as -> by (apply shown_closed; rewrite Hws; apply shown_closed, Hc);
    reflexivity) (tasks s) (windows s) (fun _ => eq_refl)).
  destruct (mapSt _ (tasks s) (windows s)) as [ts ws]. exact H.
Qed.

(** [Part000], [Direct]: with the elements missing the callback leaves every
    window as it was. *)
Lemma Part000_tick_lacks T s w :
  lacksDisplay (document (windows s w)) ->
  forall w', windows (Part000.intervalCallback T w s) w' = windows s w'.
Proof.
  intros Hl. unfold Part000.intervalCallback.
  pose proof (mapSt_snd (Part000.tickTask T (isDistracted s) w)
                (fun ws => forall w', ws w' = windows s w')) as H.
  specialize (H ltac:(
    intros t ws Hws w'; unfold Part000.tickTask;
    destruct (String.eqb (id t) T); [|apply Hws];
    cbn; rewrite upd_same; [apply Hws|];
    apply patchWindow_lacks; rewrite Hws; exact Hl) (tasks s) (windows s) (fun _ => eq_refl)).
  destruct (mapSt _ (tasks s) (windows s)) as [ts ws]. exact H.
Qed.

Lemma creditSecond_total T d t :
  id t = T ->
  timeSpent (creditSecond T d t) + distractionTime (creditSecond T d t) =
  timeSpent t + distractionTime t + 1.
Proof.
  intros <-. unfold creditSecond. rewrite String.eqb_refl. destruct d; cbn; lia.
Qed.

(** C8.  Whatever the state of the window, the tick updates the task list:
    the new list does not depend on the handle or on the windows, and the
    timed task gets its second.  With a stale handle ([null] or a closed
    window) the render is a no-op: [Widget] does not touch the windows, and
    the versions that write through the captured window change nothing that
    is displayed.  With the expected elements missing nothing is written at
    all.  No case raises an error: the callbacks are total functions. *)
Theorem render_never_blocks_tick (T : string) (d : bool) (w : WinRef) (s : App) :
  (forall pip ws,
     tasks (Widget.intervalCallback T d (setWindows (fun _ => ws) (setPipWindowRef pip s))) =
     tasks (Widget.intervalCallback T d s)) /\
  (forall w1 ws,
     tasks (Part000.intervalCallback T w1 (setWindows (fun _ => ws) s)) =
     tasks (Part000.intervalCallback T w s)) /\
  (forall i t, tasks s !! i = Some t -> id t = T ->
     (exists t', tasks (Widget.intervalCallback T d s) !! i = Some t' /\
        timeSpent t' + distractionTime t' = timeSpent t + distractionTime t + 1) /\
     (exists t', tasks (Part000.intervalCallback T w s) !! i = Some t' /\
        timeSpent t' + distractionTime t' = timeSpent t + distractionTime t + 1)) /\
  (stale s -> windows (Widget.intervalCallback T d s) = windows s) /\
  (closed (windows s w) = true ->
     forall w', shown (windows (Part000.intervalCallback T w s) w') = shown (windows s w')) /\
  (pipWindowRef s = Some w -> lacksDisplay (document (windows s w)) ->
     forall w', windows (Widget.intervalCallback T d s) w' = windows s w') /\
  (lacksDisplay (document (windows s w)) ->
     forall w', windows (Part000.intervalCallback T w s) w' = windows s w').
Proof.
  split; [|split; [|split; [|split; [|split; [|split]]]]].
  - intros pip ws. rewrite !Widget_intervalCallback_tasks. reflexivity.
  - intros w1 ws. rewrite !Part000_intervalCallback_tasks. reflexivity.
  - intros i t Hi Hid.
    rewrite Widget_intervalCallback_tasks, Part000_intervalCallback_tasks.
    rewrite !list_lookup_fmap, Hi. cbn.
    split; (eexists; split; [reflexivity|]; apply creditSecond_total, Hid).
  - apply Widget_tick_stale.
  - apply Part000_tick_closed.
  - apply Widget_tick_lacks.
  - apply Part000_tick_lacks.
Qed.

Lemma render_never_blocks_tick_witness :
  (tasks goneWindow !! 0%nat = Some freshTask /\ id freshTask = "task-1" /\
   stale goneWindow /\ closed (windows goneWindow 1%positive) = true /\
   pipWindowRef goneWindow = Some 1%positive /\
   lacksDisplay (document (windows goneWindow 1%positive))) /\
  ((exists t', tasks (Widget.intervalCallback "task-1" false goneWindow) !! 0%nat = Some t' /\
      timeSpent t' + distractionTime t' = timeSpent freshTask + distractionTime freshTask + 1) /\
   (exists t', tasks (Part000.intervalCallback "task-1" 1%positive goneWindow) !! 0%nat = Some t' /\
      timeSpent t' + distractionTime t' = timeSpent freshTask + distractionTime freshTask + 1)) /\
  windows (Widget.intervalCallback "task-1" false goneWindow) = windows goneWindow /\
  (forall w', shown (windows (Part000.intervalCallback "task-1" 1%positive goneWindow) w') =
              shown (windows goneWindow w')) /\
  (forall w', windows (Widget.intervalCallback "task-1" false goneWindow) w' = windows goneWindow w') /\
  (forall w', windows (Part000.intervalCallback "task-1" 1%positive goneWindow) w' = windows goneWindow w').
Proof.
  assert (Hl : lacksDisplay (document (windows goneWindow 1%positive)))
    by (split; [|left]; reflexivity).
  split; [split; [|split; [|split; [|split; [|split]]]]; try reflexivity; exact Hl|].
  destruct (render_never_blocks_tick "task-1" false 1%positive goneWindow)
    as (_ & _ & Hinc & Hstale & Hclosed & Hlw & Hlp).
  split; [apply Hinc; reflexivity|].
  split; [apply Hstale; reflexivity|].
  split; [apply Hclosed; reflexivity|].
  split; [apply Hlw; [reflexivity | exact Hl] | apply Hlp; exact Hl].
Defined.

(** ** Stopping *)

(** Case analysis on the two handles a stop looks at. *)
Ltac stop_cases s :=
  destruct s as [ts tid dis err pip tim cl li ivs nxt ws];
  unfold Widget.handleStopTimer, Part000.handleStopTimer, Direct.handleStopTimer,
         Part000.effectCleanup, Direct.effectCleanup, Idle, tornDown;
  destruct tim as [h|]; destruct pip as [w|]; cbn;
  try (destruct (closed (ws w)) eqn:Hclosed; cbn).

Lemma Widget_stop_twice s :
  Widget.handleStopTimer (Widget.handleStopTimer s) = Widget.handleStopTimer s.
Proof. stop_cases s; reflexivity. Qed.

Lemma Part000_stop_twice s :
  Part000.handleStopTimer (Part000.handleStopTimer s) = Part000.handleStopTimer s.
Proof. stop_cases s; reflexivity. Qed.

Lemma Direct_stop_eq s : Direct.handleStopTimer s = Part000.handleStopTimer s.
Proof. reflexivity. Qed.

Lemma upd_eq w v ws : upd w v ws w = v.
Proof. unfold upd. rewrite Pos.eqb_refl. reflexivity. Qed.

Lemma Widget_stop_tornDown s : tornDown s (Widget.handleStopTimer s).
Proof.
  stop_cases s; (split; [repeat split|]); split; intros x Hx;
    try discriminate Hx; try (injection Hx as <-);
    try apply lookup_delete_eq; try (rewrite upd_eq; reflexivity); assumption.
Qed.

Lemma Part000_stop_tornDown s : tornDown s (Part000.handleStopTimer s).
Proof.
  stop_cases s; (split; [repeat split|]); split; intros x Hx;
    try discriminate Hx; try (injection Hx as <-);
    try apply lookup_delete_eq; rewrite upd_eq; reflexivity.
Qed.

Lemma Widget_stop_idle s : Idle s -> Widget.handleStopTimer s = s.
Proof.
  intros (H1 & H2 & H3). destruct s; cbn in *; subst. reflexivity.
Qed.

Lemma Part000_stop_idle s : Idle s -> Part000.handleStopTimer s = s.
Proof.
  intros (H1 & H2 & H3). destruct s; cbn in *; subst. reflexivity.
Qed.

(** C3.  [handleStopTimer] is idempotent in every state: a second call in a
    row changes nothing, the state after one call has no interval handle, no
    window handle and no timed task, and a call in such a state is a no-op.
    The function is total, so no call fails. *)
Theorem handleStopTimer_idempotent (s : App) :
  (Widget.handleStopTimer (Widget.handleStopTimer s) = Widget.handleStopTimer s /\
   Part000.handleStopTimer (Part000.handleStopTimer s) = Part000.handleStopTimer s /\
   Direct.handleStopTimer (Direct.handleStopTimer s) = Direct.handleStopTimer s) /\
  (Idle (Widget.handleStopTimer s) /\ Idle (Part000.handleStopTimer s) /\
   Idle (Direct.handleStopTimer s)) /\
  (Idle s ->
   Widget.handleStopTimer s = s /\ Part000.handleStopTimer s = s /\
   Direct.handleStopTimer s = s).
Proof.
  split; [|split].
  - split; [apply Widget_stop_twice | split; apply Part000_stop_twice].
  - split; [apply Widget_stop_tornDown | split; apply Part000_stop_tornDown].
  - intros Hs. split; [apply Widget_stop_idle | split; apply Part000_stop_idle]; exact Hs.
Qed.

Lemma handleStopTimer_idempotent_witness :
  Idle twoTasks /\
  (Widget.handleStopTimer twoTasks = twoTasks /\ Part000.handleStopTimer twoTasks = twoTasks /\
   Direct.handleStopTimer twoTasks = twoTasks) /\
  Widget.handleStopTimer (Widget.handleStopTimer widgetSession) = Widget.handleStopTimer widgetSession.
Proof.
  assert (Hidle : Idle twoTasks) by (repeat split).
  split; [exact Hidle|].
  split; [apply (proj2 (proj2 (handleStopTimer_idempotent twoTasks))), Hidle|].
  exact (proj1 (proj1 (handleStopTimer_idempotent widgetSession))).
Defined.

(** The effects that follow a stop find nothing to do. *)
Lemma Widget_after_idle prev s :
  Idle s ->
  Widget.afterTimedTaskId prev s = s \/ Widget.afterTimedTaskId prev s = setCleanup false s.
Proof.
  intros (H1 & H2 & H3). unfold Widget.afterTimedTaskId.
  destruct (decide (prev = timedTaskId s)); [left; reflexivity|right].
  unfold Widget.renderWidgetContent. rewrite H2.
  unfold Widget.timerEffect. rewrite H3.
  destruct (cleanup s); rewrite H1; reflexivity.
Qed.

Lemma tornDown_setCleanup s s' b : tornDown s s' -> tornDown s (setCleanup b s').
Proof. intros H. exact H. Qed.

Lemma Widget_pagehide_tornDown s : tornDown s (Widget.step Widget.Pagehide s).
Proof.
  cbn [Widget.step]. pose proof (Widget_stop_tornDown s) as Ht.
  destruct (Widget_after_idle (timedTaskId s) (Widget.handleStopTimer s) (proj1 Ht)) as [-> | ->];
    [exact Ht | apply tornDown_setCleanup, Ht].
Qed.

(** C10.  After [handleStopTimer] the component is back to no session, in
    the three versions: the interval handle is cleared and [null], the window
    handle is [null] and the window it held is closed, [timedTaskId] is
    [null].  Every stop path ends there: the handler itself (the ['pagehide']
    listener calls nothing else), the ['pagehide'] event of [Widget] with the
    effects that follow it, and the cleanup of the effect in [Part000] and
    [Direct]. *)
Theorem every_stop_path_resets (s : App) :
  tornDown s (Widget.handleStopTimer s) /\
  tornDown s (Part000.handleStopTimer s) /\
  tornDown s (Direct.handleStopTimer s) /\
  tornDown s (Widget.step Widget.Pagehide s) /\
  tornDown s (Part000.effectCleanup s) /\
  tornDown s (Direct.effectCleanup s).
Proof.
  split; [apply Widget_stop_tornDown|].
  split; [apply Part000_stop_tornDown|].
  split; [apply Part000_stop_tornDown|].
  split; [apply Widget_pagehide_tornDown|].
  split; apply (Part000_stop_tornDown (setListening false s)).
Qed.

(** ** Starting *)

(** C2 (as amended).  While a timer session exists, that is while
    [timedTaskId] is a non-empty string, a start for any task is rejected with
    the alert and changes nothing: the session keeps its task, and no counter
    of any task changes. *)
Theorem start_rejected_while_timing (s : App) (taskId1 taskId2 : string) (acq : Acquisition) :
  timedTaskId s = Some taskId1 -> taskId1 <> "" ->
  Part000.handleStartTimer taskId2 s = (s, alreadyRunning) /\
  Part000.start taskId2 acq s = (s, alreadyRunning) /\
  Direct.handleStartTimer taskId2 acq s = (s, alreadyRunning).
Proof.
  intros Hid Hne.
  assert (Ht : truthy (timedTaskId s) = true).
  { rewrite Hid. cbn. destruct (String.eqb_spec taskId1 ""); [contradiction|reflexivity]. }
  unfold Part000.start, Part000.handleStartTimer, Direct.handleStartTimer. rewrite Ht.
  split; [reflexivity|]. split; [|reflexivity].
  destruct (decide (timedTaskId s = timedTaskId s)); [reflexivity|contradiction].
Qed.

Lemma start_rejected_while_timing_witness :
  (timedTaskId part000Session = Some "task-1" /\ "task-1" <> "") /\
  Part000.handleStartTimer "task-2" part000Session = (part000Session, alreadyRunning) /\
  Part000.start "task-2" (Granted 2%positive) part000Session = (part000Session, alreadyRunning) /\
  Direct.handleStartTimer "task-2" (Granted 2%positive) part000Session = (part000Session, alreadyRunning).
Proof.
  split; [split; [reflexivity|discriminate]|].
  apply (start_rejected_while_timing part000Session "task-1" "task-2" (Granted 2%positive));
    [reflexivity|discriminate].
Defined.

(** C2 as stated fails when [timedTaskId] is the empty string, which is not
    [null] and which [if (timedTaskId)] takes for no timer: after "Start
    Timer" on a task whose id is empty, a second start is accepted and
    replaces the timed task. *)
Lemma start_accepted_counterexample :
  ~ (forall (s : App) (taskId2 : string),
       timedTaskId s <> None ->
       Part000.handleStartTimer taskId2 s = (s, alreadyRunning)).
Proof.
  intros H. specialize (H blankStarted "task-1" ltac:(discriminate)).
  apply (f_equal snd) in H. discriminate H.
Qed.

Example blankStarted_timedTaskId :
  timedTaskId blankStarted = Some "" /\
  timedTaskId (fst (Part000.handleStartTimer "task-1" blankStarted)) = Some "task-1".
Proof. split; reflexivity. Qed.








Example heldWindow_state :
  timedTaskId (reachedDirect heldWindow) = Some "" /\
  pipWindowRef (reachedDirect heldWindow) = Some 1%positive /\
  pipWindowRef (Direct.step (Direct.StartTimer "task-1" (Rejected false))
                  (reachedDirect heldWindow)) = Some 1%positive /\
  snd (Direct.handleStartTimer "task-1" (Rejected false) (reachedDirect heldWindow)) =
    directReport (Rejected false).
Proof. repeat split. Qed.

(** ** [Widget]: the interval and the session *)

Lemma sameTimers_owns s s' : sameTimers s s' -> ownsIntervals s -> ownsIntervals s'.
Proof.
  intros (Hi & Hr & Hc) Ho h Hh. rewrite Hi in Hh. rewrite Hr, Hc. apply Ho, Hh.
Qed.

Lemma sameTimers_refl s : sameTimers s s.
Proof. repeat split. Qed.

Lemma sameTimers_trans s1 s2 s3 : sameTimers s1 s2 -> sameTimers s2 s3 -> sameTimers s1 s3.
Proof. unfold sameTimers. intros (?&?&?) (?&?&?). repeat split; congruence. Qed.

Lemma renderWidgetContent_timers s : sameTimers s (Widget.renderWidgetContent s).
Proof.
  unfold Widget.renderWidgetContent. destruct (pipWindowRef s) as [w|]; [|apply sameTimers_refl].
  destruct (closed (windows s w)); repeat split.
Qed.

Lemma renderWidgetContent_session s :
  tasks (Widget.renderWidgetContent s) = tasks s /\
  timedTaskId (Widget.renderWidgetContent s) = timedTaskId s /\
  pipWindowRef (Widget.renderWidgetContent s) = pipWindowRef s.
Proof.
  unfold Widget.renderWidgetContent. destruct (pipWindowRef s) as [w|] eqn:Hp; [|repeat split; exact Hp].
  destruct (closed (windows s w)); repeat split; exact Hp.
Qed.

Lemma intervalCallback_timers T d s : sameTimers s (Widget.intervalCallback T d s).
Proof.
  unfold Widget.intervalCallback. destruct (mapSt _ _ _). repeat split.
Qed.

Lemma intervalCallback_session T d s :
  timedTaskId (Widget.intervalCallback T d s) = timedTaskId s /\
  pipWindowRef (Widget.intervalCallback T d s) = pipWindowRef s.
Proof.
  unfold Widget.intervalCallback. destruct (mapSt _ _ _). repeat split.
Qed.

Lemma handleVisibilityChange_timers hidden s :
  sameTimers s (Widget.handleVisibilityChange hidden s).
Proof.
  unfold Widget.handleVisibilityChange. cbn.
  destruct (pipWindowRef s) as [w|]; [|repeat split].
  destruct (closed (windows s w)); repeat split.
Qed.

Lemma handleOpenWidget_timers acq hidden s :
  sameTimers s (fst (Widget.handleOpenWidget acq hidden s)).
Proof.
  unfold Widget.handleOpenWidget.
  destruct (match pipWindowRef s with Some w => negb (closed (windows s w)) | None => false end);
    [apply sameTimers_refl|].
  destruct (truthy (timedTaskId s)); [repeat split|].
  destruct acq as [|e|w]; cbn [fst]; try (repeat split; fail).
  eapply sameTimers_trans; [|apply (sameTimers_trans _ _ _ (renderWidgetContent_timers _))];
    [|repeat split]. repeat split.
Qed.

Lemma owns_empty s : ownsIntervals s -> timerIntervalRef s = None -> intervals s = ∅.
Proof.
  intros Ho Hr. apply map_eq. intros h. rewrite lookup_empty.
  destruct (intervals s !! h) eqn:Hh; [|reflexivity].
  destruct (Ho h (ex_intro _ _ Hh)) as [Hr' _]. congruence.
Qed.

Lemma owns_delete s h : ownsIntervals s -> timerIntervalRef s = Some h -> delete h (intervals s) = ∅.
Proof.
  intros Ho Hr. apply map_eq. intros h'. rewrite lookup_empty.
  destruct (decide (h = h')) as [<-|Hne]; [apply lookup_delete_eq|].
  rewrite lookup_delete_ne by exact Hne.
  destruct (intervals s !! h') eqn:Hh; [|reflexivity].
  destruct (Ho h' (ex_intro _ _ Hh)) as [Hr' _]. congruence.
Qed.

Lemma owns_unowed s : ownsIntervals s -> cleanup s = false -> intervals s = ∅.
Proof.
  intros Ho Hc. apply map_eq. intros h. rewrite lookup_empty.
  destruct (intervals s !! h) eqn:Hh; [|reflexivity].
  destruct (Ho h (ex_intro _ _ Hh)) as [_ Hc']. congruence.
Qed.

Lemma no_intervals_owns s : intervals s = ∅ -> ownsIntervals s.
Proof. intros He h [c Hc]. rewrite He, lookup_empty in Hc. discriminate Hc. Qed.

(** A stop clears every live interval. *)
Lemma handleStopTimer_intervals s :
  ownsIntervals s -> intervals (Widget.handleStopTimer s) = ∅.
Proof.
  intros Ho. pose proof (owns_empty s Ho) as He. pose proof (owns_delete s) as Hd.
  unfold Widget.handleStopTimer.
  destruct s as [ts tid dis err pip tim cl li ivs nxt ws]; cbn in *.
  destruct tim as [h|]; cbn;
    (destruct pip as [w|]; cbn; [destruct (closed (ws w)); cbn|]);
    first [apply (Hd h Ho eq_refl) | apply He; reflexivity].
Qed.

Lemma handleStopTimer_tasks s : tasks (Widget.handleStopTimer s) = tasks s.
Proof.
  unfold Widget.handleStopTimer.
  destruct s as [ts tid dis err pip tim cl li ivs nxt ws]; cbn.
  destruct tim as [h|]; cbn;
    (destruct pip as [w|]; cbn; [destruct (closed (ws w)); cbn|]); reflexivity.
Qed.

(** The timer effect leaves at most the interval it has just created. *)
Lemma timerEffect_owns s : ownsIntervals s -> ownsIntervals (Widget.timerEffect s).
Proof.
  intros Ho. unfold Widget.timerEffect.
  set (s1 := if cleanup s then _ else s).
  assert (He : intervals s1 = ∅).
  { subst s1. destruct (cleanup s) eqn:Hc; [|apply owns_unowed; assumption].
    destruct (timerIntervalRef s) as [h|] eqn:Hr; [apply owns_delete | apply owns_empty];
      assumption. }
  assert (Hnone : ownsIntervals (setCleanup false s1))
    by (apply no_intervals_owns; exact He).
  destruct (timedTaskId s1) as [T|]; [|exact Hnone].
  destruct (truthy (Some T)); [|exact Hnone].
  cbn. intros h [c Hc]. cbn in Hc. rewrite He in Hc.
  destruct (decide (nextTimerId s1 = h)) as [<-|Hne]; [split; reflexivity|].
  rewrite lookup_insert_ne, lookup_empty in Hc by exact Hne. discriminate Hc.
Qed.

Lemma timerEffect_tasks s : tasks (Widget.timerEffect s) = tasks s.
Proof.
  unfold Widget.timerEffect.
  assert (H : tasks (if cleanup s then
                      match timerIntervalRef s with Some h => clearInterval h s | None => s end
                    else s) = tasks s)
    by (destruct (cleanup s); [destruct (timerIntervalRef s)|]; reflexivity).
  revert H. generalize (if cleanup s then
                      match timerIntervalRef s with Some h => clearInterval h s | None => s end
                    else s).
  intros s1 H. destruct (timedTaskId s1) as [T|]; [|exact H].
  destruct (truthy (Some T)); exact H.
Qed.

Lemma afterTimedTaskId_owns prev s :
  ownsIntervals s -> ownsIntervals (Widget.afterTimedTaskId prev s).
Proof.
  intros Ho. unfold Widget.afterTimedTaskId.
  destruct (decide (prev = timedTaskId s)); [exact Ho|].
  apply timerEffect_owns, (sameTimers_owns s); [apply renderWidgetContent_timers|exact Ho].
Qed.

Lemma afterIsDistracted_owns prev s :
  ownsIntervals s -> ownsIntervals (Widget.afterIsDistracted prev s).
Proof.
  intros Ho. unfold Widget.afterIsDistracted.
  destruct (Bool.eqb prev (isDistracted s)); [exact Ho|apply timerEffect_owns, Ho].
Qed.

Lemma handleStopTimer_owns s : ownsIntervals s -> ownsIntervals (Widget.handleStopTimer s).
Proof. intros Ho. apply no_intervals_owns, handleStopTimer_intervals, Ho. Qed.

Lemma checkPipClosed_owns s : ownsIntervals s -> ownsIntervals (Widget.checkPipClosed s).
Proof.
  intros Ho. unfold Widget.checkPipClosed. destruct (pipWindowRef s) as [w|]; [|exact Ho].
  destruct (closed (windows s w)); [apply handleStopTimer_owns, Ho|exact Ho].
Qed.

Lemma step_owns e s : ownsIntervals s -> ownsIntervals (Widget.step e s).
Proof.
  intros Ho. destruct e as [h| | |w|hidden|acq hidden|T|l|now n i ef dl|l]; cbn [Widget.step].
  - destruct (intervals s !! h) as [[T d|T w]|]; try exact Ho.
    apply (sameTimers_owns s); [|exact Ho].
    eapply sameTimers_trans; [apply intervalCallback_timers|apply renderWidgetContent_timers].
  - apply afterTimedTaskId_owns, handleStopTimer_owns, Ho.
  - apply afterTimedTaskId_owns, checkPipClosed_owns, Ho.
  - exact Ho.
  - apply afterIsDistracted_owns, (sameTimers_owns s);
      [apply handleVisibilityChange_timers|exact Ho].
  - apply afterIsDistracted_owns, (sameTimers_owns s);
      [apply handleOpenWidget_timers|exact Ho].
  - apply afterTimedTaskId_owns. exact Ho.
  - destruct (Widget.importable l); [|exact Ho].
    apply (sameTimers_owns (setTasks (fun _ => l) s));
      [apply renderWidgetContent_timers|exact Ho].
  - apply (sameTimers_owns (addTask now n i ef dl s));
      [apply renderWidgetContent_timers|exact Ho].
  - apply (sameTimers_owns (setTasks (fun _ => l) s));
      [apply renderWidgetContent_timers|exact Ho].
Qed.

Lemma run_owns es : forall s, ownsIntervals s -> ownsIntervals (Widget.run es s).
Proof.
  unfold Widget.run. induction es as [|e es IH]; intros s Ho; cbn [fold_left]; [exact Ho|].
  apply IH, step_owns, Ho.
Qed.

Lemma reached_owns es : ownsIntervals (reached es).
Proof. apply run_owns, no_intervals_owns. reflexivity. Qed.

Lemma pulses_idle pulses : forall s,
  intervals s = ∅ -> Widget.run (map Widget.Pulse pulses) s = s.
Proof.
  unfold Widget.run. induction pulses as [|h pulses IH]; intros s He; cbn [map fold_left];
    [reflexivity|].
  cbn [Widget.step]. rewrite He, lookup_empty. apply IH, He.
Qed.

Lemma pagehide_result s :
  ownsIntervals s ->
  Idle (Widget.step Widget.Pagehide s) /\
  intervals (Widget.step Widget.Pagehide s) = ∅ /\
  tasks (Widget.step Widget.Pagehide s) = tasks s.
Proof.
  intros Ho. cbn [Widget.step].
  pose proof (Widget_stop_tornDown s) as [Hidle _].
  pose proof (handleStopTimer_intervals s Ho) as He.
  pose proof (handleStopTimer_tasks s) as Ht.
  destruct (Widget_after_idle (timedTaskId s) (Widget.handleStopTimer s) Hidle) as [-> | ->];
    repeat split; try apply Hidle; assumption.
Qed.

(** C4.  In every state [Widget] can reach, a close notification of the
    window runs [handleStopTimer], as a stop requested by the user would: the
    ['pagehide'] listener calls it, and so does the polled check once it finds
    the window closed.  The component is then without session and without any
    live interval, the task list is the one at the notification, and pulses
    injected afterwards, for whatever handle, change nothing. *)
Theorem close_notification_stops_ticking (es : list Widget.Event) (pulses : list positive) :
  Widget.step Widget.Pagehide (reached es) =
    Widget.afterTimedTaskId (timedTaskId (reached es)) (Widget.handleStopTimer (reached es)) /\
  (forall w, pipWindowRef (reached es) = Some w -> closed (windows (reached es) w) = true ->
     Widget.step Widget.Poll (reached es) = Widget.step Widget.Pagehide (reached es)) /\
  Idle (Widget.step Widget.Pagehide (reached es)) /\
  intervals (Widget.step Widget.Pagehide (reached es)) = ∅ /\
  tasks (Widget.step Widget.Pagehide (reached es)) = tasks (reached es) /\
  Widget.run (map Widget.Pulse pulses) (Widget.step Widget.Pagehide (reached es)) =
    Widget.step Widget.Pagehide (reached es).
Proof.
  destruct (pagehide_result (reached es) (reached_owns es)) as (Hidle & He & Ht).
  split; [reflexivity|]. split; [|split; [exact Hidle|split; [exact He|split; [exact Ht|]]]].
  - intros w Hp Hc. cbn [Widget.step]. unfold Widget.checkPipClosed. rewrite Hp, Hc. reflexivity.
  - apply pulses_idle, He.
Qed.

Lemma close_notification_stops_ticking_witness :
  (pipWindowRef (reached closedWhileTiming) = Some 1%positive /\
   closed (windows (reached closedWhileTiming) 1%positive) = true /\
   timedTaskId (reached closedWhileTiming) = Some "task-1" /\
   timerIntervalRef (reached closedWhileTiming) = Some 1%positive) /\
  Widget.step Widget.Poll (reached closedWhileTiming) =
    Widget.step Widget.Pagehide (reached closedWhileTiming) /\
  Widget.run (map Widget.Pulse [1%positive; 2%positive])
      (Widget.step Widget.Pagehide (reached closedWhileTiming)) =
    Widget.step Widget.Pagehide (reached closedWhileTiming).
Proof.
  split; [repeat split|].
  destruct (close_notification_stops_ticking closedWhileTiming [1%positive; 2%positive])
    as (_ & Hpoll & _ & _ & _ & Hpulses).
  split; [apply (Hpoll 1%positive); reflexivity | exact Hpulses].
Defined.

(** The session of the witness was ticking: the pulse before the window
    went away gave [task-1] its second. *)
Example ticking_before_close :
  timeSpent <$> tasks (reached [Widget.Import [freshTask; timedTask];
                                Widget.OpenWidget (Granted 1%positive) false;
                                Widget.ClickStart "task-1"; Widget.Pulse 1%positive]) !! 0%nat
  = Some 1.
Proof. reflexivity. Qed.

(** ** A tick whose task is gone *)





Example orphaned_keeps_ticking :
  timedTaskId (Widget.step (Widget.Pulse 1%positive) orphaned) = Some "task-1" /\
  timerIntervalRef (Widget.step (Widget.Pulse 1%positive) orphaned) = Some 1%positive /\
  intervals (Widget.step (Widget.Pulse 1%positive) orphaned) !! 1%positive =
    Some (TickOfState "task-1" false) /\
  tasks (Widget.step (Widget.Pulse 1%positive) orphaned) = [timedTask].
Proof. repeat split. Qed.

(** ** Time formatting *)

(** A number from 10 on is written with two digits at least. *)
Lemma toString_two_digits (v : Z) : 10 <= v -> (2 <= String.length (toString v))%nat.
Proof.
  intros Hv. destruct v as [|p|p]; try lia.
  unfold toString. cbn [Z.to_int NilEmpty.string_of_int].
  pose proof (DecimalPos.Unsigned.of_to p) as Hp.
  destruct (Pos.to_uint p) as [|d|d|d|d|d|d|d|d|d|d];
    cbn [NilEmpty.string_of_uint String.length];
    try (destruct d; cbn [NilEmpty.string_of_uint String.length]; try lia;
         cbn in Hp; injection Hp as Hp; lia).
  - discriminate Hp.
  - destruct d; cbn [NilEmpty.string_of_uint String.length]; try lia.
    discriminate Hp.
Qed.

Lemma padStart_toString (v : Z) : 0 <= v -> padStart 2 "0" (toString v) = twoDigits v.
Proof.
  intros Hv. unfold twoDigits. destruct (Z.ltb_spec v 10) as [Hlt|Hge].
  - assert (Hc : v = 0 \/ v = 1 \/ v = 2 \/ v = 3 \/ v = 4 \/ v = 5 \/ v = 6 \/
                 v = 7 \/ v = 8 \/ v = 9) by lia.
    repeat (destruct Hc as [->|Hc]; [reflexivity|]). subst. reflexivity.
  - pose proof (toString_two_digits v Hge) as Hl. unfold padStart.
    destruct (Nat.leb_spec 2 (String.length (toString v))); [reflexivity | lia].
Qed.

(** The time of a non-negative number of seconds, part by part. *)
Lemma formatTime_parts (n : Z) : 0 <= n -> formatTime n = HHMMSS n.
Proof.
  intros Hn. unfold formatTime, HHMMSS, join. cbn [map String.concat].
  rewrite !Z.rem_mod_nonneg by lia.
  rewrite !padStart_toString; [reflexivity | | |].
  - apply Z.mod_pos_bound; lia.
  - apply Z.div_pos; [apply Z.mod_pos_bound|]; lia.
  - apply Z.div_pos; lia.
Qed.

Lemma length_app (a b : string) :
  String.length (String.app a b) = (String.length a + String.length b)%nat.
Proof.
  induction a as [|c a IH]; [reflexivity|].
  change (S (String.length (String.app a b)) = S (String.length a + String.length b)).
  rewrite IH. reflexivity.
Qed.

(** Two concatenations with left parts of one length agree part by part. *)
Lemma app_inj_length (a1 a2 b1 b2 : string) :
  String.length a1 = String.length a2 ->
  String.app a1 b1 = String.app a2 b2 -> a1 = a2 /\ b1 = b2.
Proof.
  revert a2. induction a1 as [|c a1 IH]; intros [|c2 a2] Hl H; try discriminate Hl.
  - split; [reflexivity|exact H].
  - change (String c (String.app a1 b1) = String c2 (String.app a2 b2)) in H.
    injection H as -> H. injection Hl as Hl. destruct (IH a2 Hl H) as [-> ->].
    split; reflexivity.
Qed.

Lemma toString_below_100 (v : Z) :
  0 <= v < 100 ->
  String.length (toString v) = if v <? 10 then 1%nat else 2%nat.
Proof.
  intros Hv. assert (Hk : exists k : nat, v = Z.of_nat k /\ (k < 100)%nat)
    by (exists (Z.to_nat v); lia).
  destruct Hk as (k & -> & Hk).
  do 100 (destruct k as [|k]; [reflexivity|]). lia.
Qed.

Lemma twoDigits_length (v : Z) :
  0 <= v ->
  (2 <= String.length (twoDigits v))%nat /\
  (v < 100 -> String.length (twoDigits v) = 2%nat).
Proof.
  intros Hv. unfold twoDigits. destruct (Z.ltb_spec v 10) as [Hlt|Hge].
  - rewrite length_app, toString_below_100 by lia.
    destruct (Z.ltb_spec v 10); [|lia]. cbn. split; [lia|reflexivity].
  - split; [apply toString_two_digits, Hge|]. intros H100.
    rewrite toString_below_100 by lia. destruct (Z.ltb_spec v 10); [lia|reflexivity].
Qed.

(** The value of the digit under the eye, by computation. *)
Ltac digit :=
  match goal with
  | |- context [digitValue ?c] =>
      let v := eval vm_compute in (digitValue c) in
      change (digitValue c) with v; cbv iota
  end.

Lemma readDigits_acc (d : Decimal.uint) (acc : positive) :
  readDigits (Z.pos acc) (NilEmpty.string_of_uint d) = Some (Z.pos (Pos.of_uint_acc d acc)).
Proof.
  revert acc. induction d; intros acc;
    cbn [NilEmpty.string_of_uint readDigits Pos.of_uint_acc]; [reflexivity | digit ..];
    rewrite <- IHd; f_equal; lia.
Qed.

Lemma readDigits_uint (d : Decimal.uint) :
  readDigits 0 (NilEmpty.string_of_uint d) = Some (Z.of_N (Pos.of_uint d)).
Proof.
  induction d; cbn [NilEmpty.string_of_uint readDigits Pos.of_uint];
    [reflexivity | digit ..]; [exact IHd | apply readDigits_acc ..].
Qed.

Lemma readDigits_toString (v : Z) : 0 <= v -> readDigits 0 (toString v) = Some v.
Proof.
  intros Hv. destruct v as [|p|p]; [reflexivity | | lia].
  unfold toString. cbn [Z.to_int NilEmpty.string_of_int].
  rewrite readDigits_uint, DecimalPos.Unsigned.of_to. reflexivity.
Qed.

Lemma toString_no_leading_zero (v : Z) : 0 < v -> String.get 0 (toString v) <> Some "0"%char.
Proof.
  intros Hv. destruct v as [|p|p]; try lia.
  unfold toString. cbn [Z.to_int NilEmpty.string_of_int].
  pose proof (DecimalPos.Unsigned.to_of (Pos.to_uint p)) as Hn.
  rewrite DecimalPos.Unsigned.of_to in Hn. cbn [N.to_uint] in Hn.
  pose proof (DecimalPos.Unsigned.to_uint_nonzero p) as Hz.
  destruct (Pos.to_uint p) as [|d|d|d|d|d|d|d|d|d|d] eqn:E;
    cbn [NilEmpty.string_of_uint String.get]; try discriminate.
  exfalso. unfold Decimal.unorm in Hn. rewrite DecimalFacts.nzhead_D0 in Hn.
  pose proof (DecimalFacts.nzhead_nonzero d) as Hnz.
  destruct (Decimal.nzhead d) eqn:E2; try discriminate Hn.
  - apply Hz. congruence.
  - eapply Hnz. reflexivity.
Qed.

Lemma twoDigits_written (v : Z) : 0 <= v -> written v (twoDigits v).
Proof.
  intros Hv. split.
  - unfold twoDigits. destruct (v <? 10); [|apply readDigits_toString, Hv].
    change (String.app "0" (toString v)) with (String "0" (toString v)).
    cbn [readDigits]. digit. apply readDigits_toString, Hv.
  - destruct (Z.ltb_spec v 100) as [Hlt|Hge].
    + apply twoDigits_length; lia.
    + unfold twoDigits. destruct (Z.ltb_spec v 10); [lia|].
      apply toString_no_leading_zero. lia.
Qed.

(** C9.  For a number of seconds [n] from zero to [Number.MAX_SAFE_INTEGER],
    [formatTime n] is three numerals joined by colons: the hours [n / 3600],
    the minutes [(n mod 3600) / 60] and the seconds [n mod 60], each written
    in decimal and zero-padded to two digits (so the hours take more digits
    from one hundred on).  In particular 3 seconds give [00:00:03] and 3661
    seconds give [01:01:01]. *)
Theorem formatTime_HHMMSS (n : Z) :
  0 <= n <= MAX_SAFE_INTEGER ->
  (exists hh mm ss : string,
     formatTime n = String.app hh (String.app ":" (String.app mm (String.app ":" ss))) /\
     written (n / 3600) hh /\ written (n mod 3600 / 60) mm /\ written (n mod 60) ss) /\
  formatTime 3 = "00:00:03" /\ formatTime 3661 = "01:01:01".
Proof.
  intros [Hn _]. split; [|split; reflexivity].
  exists (twoDigits (n / 3600)), (twoDigits (n mod 3600 / 60)), (twoDigits (n mod 60)).
  split; [apply formatTime_parts, Hn|].
  pose proof (Z.mod_pos_bound n 3600 ltac:(lia)) as Hm.
  pose proof (Z.mod_pos_bound n 60 ltac:(lia)) as Hs.
  split; [|split]; apply twoDigits_written.
  - apply Z.div_pos; lia.
  - apply Z.div_pos; lia.
  - lia.
Qed.

Lemma formatTime_HHMMSS_witness :
  0 <= 3661 <= MAX_SAFE_INTEGER /\
  (exists hh mm ss : string,
     formatTime 3661 = String.app hh (String.app ":" (String.app mm (String.app ":" ss))) /\
     written (3661 / 3600) hh /\ written (3661 mod 3600 / 60) mm /\
     written (3661 mod 60) ss) /\
  formatTime 3 = "00:00:03" /\ formatTime 3661 = "01:01:01".
Proof.
  assert (H : 0 <= 3661 <= MAX_SAFE_INTEGER) by (unfold MAX_SAFE_INTEGER; lia).
  split; [exact H | exact (formatTime_HHMMSS 3661 H)].
Defined.

Example formatTime_3 : formatTime 3 = "00:00:03".
Proof. reflexivity. Qed.

Example formatTime_3661 : formatTime 3661 = "01:01:01".
Proof. reflexivity. Qed.

(** The hours take the digits they need. *)
Example formatTime_100_hours : formatTime 360000 = "100:00:00".
Proof. reflexivity. Qed.

(** * Further properties *)

(** ** The time format *)

Lemma HHMMSS_length (n : Z) :
  0 <= n ->
  String.length (HHMMSS n) = (String.length (twoDigits (n / 3600)) + 6)%nat.
Proof.
  intros Hn. unfold HHMMSS. rewrite !length_app.
  assert (Hm : 0 <= n mod 3600 / 60 < 100)
    by (pose proof (Z.mod_pos_bound n 3600); split;
        [apply Z.div_pos; lia | apply Z.div_lt_upper_bound; lia]).
  assert (Hs : 0 <= n mod 60 < 100) by (pose proof (Z.mod_pos_bound n 60); lia).
  rewrite (proj2 (twoDigits_length _ (proj1 Hm)) (proj2 Hm)).
  rewrite (proj2 (twoDigits_length _ (proj1 Hs)) (proj2 Hs)).
  cbn. lia.
Qed.

(** X1.  The time of a non-negative number of seconds takes eight characters
    at least, and exactly eight below one hundred hours. *)
Theorem formatTime_width (n : Z) :
  0 <= n ->
  (8 <= String.length (formatTime n))%nat /\
  (n < 360000 -> String.length (formatTime n) = 8%nat).
Proof.
  intros Hn. rewrite formatTime_parts, HHMMSS_length by exact Hn.
  assert (Hh : 0 <= n / 3600) by (apply Z.div_pos; lia).
  destruct (twoDigits_length _ Hh) as [Hge Heq]. split; [lia|].
  intros Hlt. rewrite Heq; [reflexivity|]. apply Z.div_lt_upper_bound; lia.
Qed.

Lemma formatTime_width_witness :
  (0 <= 359999 /\ 359999 < 360000) /\
  (8 <= String.length (formatTime 359999))%nat /\ String.length (formatTime 359999) = 8%nat.
Proof.
  split; [lia|].
  destruct (formatTime_width 359999 ltac:(lia)) as [H1 H2].
  split; [exact H1 | apply H2; lia].
Defined.

(** Reading the digits back gives the number. *)
Lemma read_toString (v : Z) :
  0 <= v -> Z.of_uint <$> NilEmpty.uint_of_string (toString v) = Some v.
Proof.
  intros Hv. unfold toString. pose proof (DecimalZ.of_to v) as Hz.
  destruct (Z.to_int v) as [u|u] eqn:Hu.
  - cbn [NilEmpty.string_of_int]. rewrite NilEmpty.usu. cbn. f_equal. exact Hz.
  - destruct v as [|p|p]; cbn in Hu; try discriminate Hu. lia.
Qed.

Lemma read_twoDigits (v : Z) :
  0 <= v -> Z.of_uint <$> NilEmpty.uint_of_string (twoDigits v) = Some v.
Proof.
  intros Hv. pose proof (read_toString v Hv) as Hr. unfold twoDigits.
  destruct (v <? 10); [|exact Hr].
  change (String.app "0" (toString v)) with (String "0" (toString v)).
  cbn [NilEmpty.uint_of_string].
  destruct (NilEmpty.uint_of_string (toString v)) as [u|]; [|discriminate Hr].
  cbn in *. exact Hr.
Qed.

Lemma twoDigits_inj (a b : Z) : 0 <= a -> 0 <= b -> twoDigits a = twoDigits b -> a = b.
Proof.
  intros Ha Hb H. pose proof (read_twoDigits a Ha) as Hra.
  rewrite H, (read_twoDigits b Hb) in Hra. congruence.
Qed.

(** X2.  Two different non-negative numbers of seconds are never shown as
    the same time. *)
Theorem formatTime_inj (n1 n2 : Z) :
  0 <= n1 -> 0 <= n2 -> formatTime n1 = formatTime n2 -> n1 = n2.
Proof.
  intros H1 H2 H. rewrite !formatTime_parts in H by assumption.
  pose proof (f_equal String.length H) as Hl. rewrite !HHMMSS_length in Hl by assumption.
  assert (Hh1 : 0 <= n1 / 3600) by (apply Z.div_pos; lia).
  assert (Hh2 : 0 <= n2 / 3600) by (apply Z.div_pos; lia).
  assert (Hm : forall n, 0 <= n mod 3600 / 60 < 100)
    by (intros n; pose proof (Z.mod_pos_bound n 3600); split;
        [apply Z.div_pos; lia | apply Z.div_lt_upper_bound; lia]).
  assert (Hs : forall n, 0 <= n mod 60 < 100)
    by (intros n; pose proof (Z.mod_pos_bound n 60); lia).
  unfold HHMMSS in H.
  apply app_inj_length in H; [|lia]. destruct H as [Hh H].
  change (String ":" (String.app (twoDigits (n1 mod 3600 / 60))
                        (String.app ":" (twoDigits (n1 mod 60)))) =
          String ":" (String.app (twoDigits (n2 mod 3600 / 60))
                        (String.app ":" (twoDigits (n2 mod 60))))) in H.
  injection H as H.
  apply app_inj_length in H;
    [|rewrite !(proj2 (twoDigits_length _ (proj1 (Hm _))) (proj2 (Hm _))); reflexivity].
  destruct H as [Hmm H].
  change (String ":" (twoDigits (n1 mod 60)) = String ":" (twoDigits (n2 mod 60))) in H.
  injection H as Hss.
  apply twoDigits_inj in Hh; [|assumption..].
  apply twoDigits_inj in Hmm; [|apply Hm..].
  apply twoDigits_inj in Hss; [|apply Hs..].
  assert (Hsplit : forall n, n = 3600 * (n / 3600) + 60 * (n mod 3600 / 60) + n mod 60).
  { intros n. pose proof (Z.div_mod n 3600 ltac:(lia)) as Ha.
    pose proof (Z.div_mod (n mod 3600) 60 ltac:(lia)) as Hb.
    assert (Hc : n mod 60 = (n mod 3600) mod 60)
      by (symmetry; apply Z.mod_mod_divide; exists 60; reflexivity).
    lia. }
  rewrite (Hsplit n1), (Hsplit n2), Hh, Hmm, Hss. reflexivity.
Qed.

Lemma formatTime_inj_witness :
  (0 <= 59 /\ 0 <= 59 /\ formatTime 59 = formatTime 59) /\ 59 = 59.
Proof.
  split; [repeat split; lia|].
  apply (formatTime_inj 59 59); [lia | lia | reflexivity].
Defined.

(** The ids [addTask] makes differ when the clock readings do. *)
Lemma toString_inj (a b : Z) : toString a = toString b -> a = b.
Proof.
  unfold toString. intros H.
  apply (f_equal NilEmpty.int_of_string) in H. rewrite !NilEmpty.isi in H.
  injection H as H. rewrite <- (DecimalZ.of_to a), <- (DecimalZ.of_to b), H. reflexivity.
Qed.

(** ** The task list outside the timer *)

(** X3.  [addTask] puts the new task after the ones there are, with both
    counters at zero and the status [todo]; of two tasks added one after the
    other, the ids are the same exactly when [Date.now()] gave the same
    value. *)
Theorem addTask_appends (now1 now2 : Z) (name1 name2 : string) (impact1 impact2 : Z)
    (effort1 effort2 : Z) (deadline1 deadline2 : string) (s : App) :
  exists t1 t2,
    tasks (addTask now2 name2 impact2 effort2 deadline2
             (addTask now1 name1 impact1 effort1 deadline1 s)) = tasks s ++ [t1; t2] /\
    (timeSpent t1 = 0 /\ distractionTime t1 = 0 /\ status t1 = todo) /\
    (timeSpent t2 = 0 /\ distractionTime t2 = 0 /\ status t2 = todo) /\
    (id t1 = id t2 <-> now1 = now2).
Proof.
  eexists _, _. split; [cbn; rewrite <- app_assoc; reflexivity|].
  split; [repeat split|]. split; [repeat split|].
  cbn [id]. split.
  - intros H. apply String.app_inj in H. apply toString_inj, H.
  - intros ->. reflexivity.
Qed.

Lemma findTask_Some taskId ts t :
  findTask taskId ts = Some t -> In t ts /\ id t = taskId.
Proof.
  unfold findTask. intros H. apply find_some in H. destruct H as [Hin He].
  split; [exact Hin | apply String.eqb_eq, He].
Qed.

Lemma Status_eqb_eq a b : Part000.Status_eqb a b = true <-> a = b.
Proof. destruct a, b; cbn; split; congruence. Qed.

Lemma Part000_stop_tasks (s : App) : tasks (Part000.handleStopTimer s) = tasks s.
Proof.
  unfold Part000.handleStopTimer.
  destruct s as [ts tid dis err pip tim cl li ivs nxt ws]; cbn.
  destruct tim, pip; reflexivity.
Qed.

Lemma Part000_open_tasks (T : string) (task : Task) (acq : Acquisition) (s : App) :
  tasks (fst (Part000.openPipWindow T task acq s)) = tasks s.
Proof. destruct acq; reflexivity. Qed.

Lemma Part000_body_tasks (rendered : option string) (acq : Acquisition) (s : App) :
  tasks (fst (Part000.effectBody rendered acq s)) = tasks s.
Proof.
  unfold Part000.effectBody. destruct rendered as [T|]; [|reflexivity].
  destruct (truthy (Some T)); [|reflexivity].
  destruct (findTask T (tasks s)) as [task|]; [|reflexivity].
  pose proof (Part000_open_tasks T task acq s) as H.
  destruct (Part000.openPipWindow T task acq s) as [s1 out]. exact H.
Qed.

Lemma Part000_effect_tasks (acq : Acquisition) (s : App) :
  tasks (fst (Part000.effect acq s)) = tasks s.
Proof.
  unfold Part000.effect. rewrite Part000_body_tasks.
  destruct (cleanup s); [|reflexivity].
  unfold Part000.effectCleanup. rewrite Part000_stop_tasks. reflexivity.
Qed.

(** X4.  Dropping a card, as far as the task list goes: when no task has the
    dragged id the handler changes nothing; otherwise the list keeps its
    length, a task with another id stays as it is, and every task with the
    dragged id becomes the first such task with the new status, its name,
    numbers, deadline and counters kept.  That task is then among the cards
    of the new column.  The new list makes the timer effect run again (its
    cleanup stops the timer), and once more when that changed the timed
    task; these runs leave the list as the drop made it. *)
Theorem onDrop_moves_card (taskId : string) (newStatus : Status) (s : App) :
  (findTask taskId (tasks s) = None -> Part000.onDrop taskId newStatus s = s) /\
  (forall draggedTask, findTask taskId (tasks s) = Some draggedTask ->
     let moved := mkTask (id draggedTask) (name draggedTask) (impact draggedTask)
                    (effort draggedTask) (deadline draggedTask) newStatus
                    (timeSpent draggedTask) (distractionTime draggedTask) in
     length (tasks (Part000.onDrop taskId newStatus s)) = length (tasks s) /\
     (forall i t, tasks s !! i = Some t ->
        tasks (Part000.onDrop taskId newStatus s) !! i =
          Some (if String.eqb (id t) taskId then moved else t)) /\
     In moved (Part000.kanbanCards newStatus (tasks (Part000.onDrop taskId newStatus s)))) /\
  (forall acq1 acq2,
     tasks (fst (Part000.effect acq1 (Part000.onDrop taskId newStatus s))) =
       tasks (Part000.onDrop taskId newStatus s) /\
     tasks (fst (Part000.effect acq2
                   (fst (Part000.effect acq1 (Part000.onDrop taskId newStatus s))))) =
       tasks (Part000.onDrop taskId newStatus s)).
Proof.
  split; [unfold Part000.onDrop; intros ->; reflexivity|].
  split; [|intros acq1 acq2; rewrite !Part000_effect_tasks; split; reflexivity].
  unfold Part000.onDrop.
  intros d Hd. cbv zeta. rewrite Hd. destruct (findTask_Some _ _ _ Hd) as [Hin Hid].
  cbn [Part000.updateTask setTasks tasks id].
  split; [apply length_map|]. split.
  - intros i t Hi. rewrite list_lookup_fmap, Hi, Hid. reflexivity.
  - unfold Part000.kanbanCards. apply filter_In. split.
    + apply in_map_iff. exists d. rewrite Hid, String.eqb_refl. split; [reflexivity|exact Hin].
    + apply Status_eqb_eq. reflexivity.
Qed.

Lemma onDrop_moves_card_witness :
  findTask "task-1" (tasks part000Session) = Some freshTask /\
  tasks (Part000.onDrop "task-1" done part000Session) =
    [mkTask "task-1" (name freshTask) (impact freshTask) (effort freshTask)
       (deadline freshTask) done 0 0; timedTask] /\
  Part000.onDrop "task-9" done part000Session = part000Session.
Proof.
  split; [reflexivity|]. split; [reflexivity|].
  exact (proj1 (onDrop_moves_card "task-9" done part000Session) eq_refl).
Defined.

(** X5.  The three columns of the board hold every task exactly once: the
    cards of [todo], [inprogress] and [done] together are a rearrangement of
    the task list. *)
Theorem kanbanCards_partition (ts : list Task) :
  Part000.kanbanCards todo ts ++ Part000.kanbanCards inprogress ts ++
  Part000.kanbanCards done ts ≡ₚ ts.
Proof.
  unfold Part000.kanbanCards. induction ts as [|t ts IH]; [reflexivity|].
  cbn [List.filter]. destruct (status t); cbn [Part000.Status_eqb].
  - cbn. apply Permutation_skip, IH.
  - change ((t :: List.filter (fun t0 => Part000.Status_eqb (status t0) inprogress) ts) ++
            List.filter (fun t0 => Part000.Status_eqb (status t0) done) ts)
      with (t :: (List.filter (fun t0 => Part000.Status_eqb (status t0) inprogress) ts ++
                  List.filter (fun t0 => Part000.Status_eqb (status t0) done) ts)).
    rewrite <- Permutation_middle. apply Permutation_skip, IH.
  - rewrite app_assoc, <- Permutation_middle, <- app_assoc. apply Permutation_skip, IH.
Qed.

(** X6.  "Prioritize with AI": when the request or the parse of its answer
    fails, the task list stays and the failure is shown; otherwise the list
    becomes the answer followed by the tasks that were [done] at the click, in
    their order, so a task is in the new list exactly when the answer holds it
    or it was [done].  Either way [isLoading] is false again. *)
Theorem prioritize_outcome (p : Part000.Page) (prioritizedTasks : list Task) :
  (Part000.app (fst (Part000.handlePrioritize Part000.Failed p)) = Part000.app p /\
   Part000.isLoading (fst (Part000.handlePrioritize Part000.Failed p)) = false /\
   exists m, In (alert m) (snd (Part000.handlePrioritize Part000.Failed p))) /\
  (tasks (Part000.app (fst (Part000.handlePrioritize (Part000.Prioritized prioritizedTasks) p))) =
     prioritizedTasks ++ Part000.kanbanCards done (tasks (Part000.app p)) /\
   Part000.isLoading (fst (Part000.handlePrioritize (Part000.Prioritized prioritizedTasks) p)) = false /\
   snd (Part000.handlePrioritize (Part000.Prioritized prioritizedTasks) p) = [] /\
   forall t,
     In t (tasks (Part000.app (fst (Part000.handlePrioritize
                                      (Part000.Prioritized prioritizedTasks) p)))) <->
     In t prioritizedTasks \/ (In t (tasks (Part000.app p)) /\ status t = done)).
Proof.
  cbn. split; [split; [reflexivity|split; [reflexivity|]]; eexists; right; left; reflexivity|].
  split; [reflexivity|]. split; [reflexivity|]. split; [reflexivity|].
  intros t. rewrite in_app_iff, filter_In, Status_eqb_eq. reflexivity.
Qed.

(** X7.  The answer is put together from the tasks of the click: seconds
    credited to a [done] task while the request was under way are in the list
    before the answer arrives and gone after it, where the task is back as it
    was at the click. *)
Theorem prioritize_discards_ticks (p : Part000.Page) (prioritizedTasks : list Task)
    (T : string) (w : WinRef) (ds : list bool) (i : nat) (t : Task) :
  tasks (Part000.app p) !! i = Some t -> id t = T -> status t = done ->
  (exists t',
     tasks (Part000.ticks T w ds (Part000.app (fst (Part000.prioritizeClicked p)))) !! i = Some t' /\
     timeSpent t' + distractionTime t' =
       timeSpent t + distractionTime t + Z.of_nat (length ds)) /\
  In t (tasks (Part000.app (fst (Part000.prioritizeSettled
          (snd (Part000.prioritizeClicked p)) (Part000.Prioritized prioritizedTasks)
          (Part000.mkPage (Part000.ticks T w ds (Part000.app (fst (Part000.prioritizeClicked p))))
             true))))) /\
  tasks (Part000.app (fst (Part000.prioritizeSettled
          (snd (Part000.prioritizeClicked p)) (Part000.Prioritized prioritizedTasks)
          (Part000.mkPage (Part000.ticks T w ds (Part000.app (fst (Part000.prioritizeClicked p))))
             true)))) =
  tasks (Part000.app (fst (Part000.handlePrioritize (Part000.Prioritized prioritizedTasks) p))).
Proof.
  intros Hi Hid Hdone. cbn. split; [|split; [|reflexivity]].
  - rewrite Part000_ticks_tasks.
    destruct (ticks_credited T ds (tasks (Part000.app p)) i t Hi Hid)
      as (t' & Ht' & _ & _ & _ & Hsum).
    exists t'. split; assumption.
  - apply in_app_iff. right. apply filter_In. split.
    + apply list_elem_of_In, list_elem_of_lookup. exists i. exact Hi.
    + apply Status_eqb_eq, Hdone.
Qed.

Lemma prioritize_discards_ticks_witness :
  (tasks (Part000.app boardPage) !! 1%nat =
     Some (mkTask "task-2" "Review" 8 3 "2025-01-02" done 5 0)) /\
  (timeSpent <$> tasks (Part000.ticks "task-2" 1%positive [false; false]
                          (Part000.app (fst (Part000.prioritizeClicked boardPage)))) !! 1%nat)
    = Some 7 /\
  In (mkTask "task-2" "Review" 8 3 "2025-01-02" done 5 0)
     (tasks (Part000.app (fst (Part000.prioritizeSettled
        (snd (Part000.prioritizeClicked boardPage)) (Part000.Prioritized [freshTask])
        (Part000.mkPage (Part000.ticks "task-2" 1%positive [false; false]
                   (Part000.app (fst (Part000.prioritizeClicked boardPage)))) true))))).
Proof.
  split; [reflexivity|]. split; [reflexivity|].
  exact (proj1 (proj2 (prioritize_discards_ticks boardPage [freshTask] "task-2" 1%positive
                         [false; false] 1 _ eq_refl eq_refl eq_refl))).
Defined.

(** X8.  An import is all or nothing and starts or stops no timer.  Whatever
    the file, the handler keeps the timed task, the handles and the
    intervals.  When something is reported the state is the one before.  The
    task list changes only when the file holds an array, the user confirmed,
    and the array is empty or its first task has a non-empty id; the list is
    then the array as it is, ids of later tasks unchecked.  In [Widget] the
    new list is then rendered into the window, which writes the window and
    keeps the timed task, the handles and the intervals as well. *)
Theorem import_all_or_nothing (r : FileResult) (confirmed : bool) (s : App) :
  (sameTimers s (fst (handleFileChange r confirmed s)) /\
   timedTaskId (fst (handleFileChange r confirmed s)) = timedTaskId s /\
   pipWindowRef (fst (handleFileChange r confirmed s)) = pipWindowRef s) /\
  (snd (handleFileChange r confirmed s) <> [] -> fst (handleFileChange r confirmed s) = s) /\
  (tasks (fst (handleFileChange r confirmed s)) <> tasks s ->
   r = TaskArray (tasks (fst (handleFileChange r confirmed s))) /\ confirmed = true /\
   snd (handleFileChange r confirmed s) = [] /\
   match tasks (fst (handleFileChange r confirmed s)) with
   | [] => True
   | t :: _ => id t <> ""
   end) /\
  (forall importedTasks,
     sameTimers s (Widget.step (Widget.Import importedTasks) s) /\
     timedTaskId (Widget.step (Widget.Import importedTasks) s) = timedTaskId s /\
     pipWindowRef (Widget.step (Widget.Import importedTasks) s) = pipWindowRef s).
Proof.
  assert (Hw : forall importedTasks,
     sameTimers s (Widget.step (Widget.Import importedTasks) s) /\
     timedTaskId (Widget.step (Widget.Import importedTasks) s) = timedTaskId s /\
     pipWindowRef (Widget.step (Widget.Import importedTasks) s) = pipWindowRef s).
  { intros l. cbn [Widget.step]. destruct (Widget.importable l); [|repeat split].
    pose proof (renderWidgetContent_timers (setTasks (fun _ => l) s)) as Ht.
    pose proof (renderWidgetContent_session (setTasks (fun _ => l) s)) as (_ & Hid & Hp).
    split; [exact Ht | split; [exact Hid | exact Hp]]. }
  unfold handleFileChange.
  destruct r as [| |m| |l]; cbn; try (repeat split; solve [congruence | apply Hw]).
  unfold Widget.importable.
  destruct l as [|t l];
    [destruct confirmed; cbn; repeat split; solve [congruence | apply Hw]|].
  destruct (String.eqb_spec (id t) "") as [He|Hne]; cbn;
    [repeat split; solve [congruence | apply Hw]|].
  destruct confirmed; cbn; repeat split; solve [congruence | apply Hw].
Qed.

Lemma import_all_or_nothing_witness :
  tasks (fst (handleFileChange (TaskArray [timedTask]) true twoTasks)) <> tasks twoTasks /\
  snd (handleFileChange (TaskArray [timedTask]) true twoTasks) = [] /\
  (snd (handleFileChange NotAnArray true twoTasks) <> [] /\
   fst (handleFileChange NotAnArray true twoTasks) = twoTasks).
Proof.
  assert (Hne : tasks (fst (handleFileChange (TaskArray [timedTask]) true twoTasks)) <>
                tasks twoTasks) by discriminate.
  assert (Hout : snd (handleFileChange NotAnArray true twoTasks) <> []) by discriminate.
  split; [exact Hne|].
  split; [exact (proj1 (proj2 (proj2 (proj1 (proj2 (proj2 (import_all_or_nothing
                   (TaskArray [timedTask]) true twoTasks))) Hne))))|].
  split; [exact Hout|].
  exact (proj1 (proj2 (import_all_or_nothing NotAnArray true twoTasks)) Hout).
Defined.

(** ** [Widget]: what the events do to the task list and to the interval *)

Lemma afterTimedTaskId_tasks prev s : tasks (Widget.afterTimedTaskId prev s) = tasks s.
Proof.
  unfold Widget.afterTimedTaskId. destruct (decide (prev = timedTaskId s)); [reflexivity|].
  rewrite timerEffect_tasks. exact (proj1 (renderWidgetContent_session s)).
Qed.

Lemma afterIsDistracted_tasks prev s : tasks (Widget.afterIsDistracted prev s) = tasks s.
Proof.
  unfold Widget.afterIsDistracted. destruct (Bool.eqb prev (isDistracted s)); [reflexivity|].
  apply timerEffect_tasks.
Qed.

Lemma checkPipClosed_tasks s : tasks (Widget.checkPipClosed s) = tasks s.
Proof.
  unfold Widget.checkPipClosed. destruct (pipWindowRef s) as [w|]; [|reflexivity].
  destruct (closed (windows s w)); [apply handleStopTimer_tasks|reflexivity].
Qed.

Lemma handleVisibilityChange_tasks hidden s :
  tasks (Widget.handleVisibilityChange hidden s) = tasks s.
Proof.
  unfold Widget.handleVisibilityChange. cbn. destruct (pipWindowRef s) as [w|]; [|reflexivity].
  destruct (closed (windows s w)); reflexivity.
Qed.

Lemma handleOpenWidget_tasks acq hidden s :
  tasks (fst (Widget.handleOpenWidget acq hidden s)) = tasks s.
Proof.
  unfold Widget.handleOpenWidget.
  destruct (match pipWindowRef s with Some w => negb (closed (windows s w)) | None => false end);
    [reflexivity|].
  destruct (truthy (timedTaskId s)); [reflexivity|].
  destruct acq as [|e|w]; cbn [fst]; try reflexivity.
  cbn [tasks setIsDistracted].
  exact (proj1 (renderWidgetContent_session (setPipWindowRef (Some w) (setWidgetError None s)))).
Qed.

(** X9.  In [Widget] the task list has four writers: the pulse of a live
    interval, a confirmed import of an acceptable file, the task form, and
    the load of the saved tasks.  No other event, be it a stop, a start, a
    change of visibility or the opening or closing of the window, changes a
    task. *)
Theorem widget_task_list_writers (e : Widget.Event) (s : App) :
  tasks (Widget.step e s) <> tasks s ->
  (exists h T d, e = Widget.Pulse h /\ intervals s !! h = Some (TickOfState T d)) \/
  (exists importedTasks, e = Widget.Import importedTasks /\
     Widget.importable importedTasks = true) \/
  (exists now name impact effort deadline,
     e = Widget.AddTask now name impact effort deadline) \/
  (exists savedTasks, e = Widget.Load savedTasks).
Proof.
  intros Hne. destruct e as [h| | |w|hidden|acq hidden|T|l|now n i ef dl|l];
    cbn [Widget.step] in Hne.
  - left. destruct (intervals s !! h) as [[T d|T w]|] eqn:Hh; try (exfalso; apply Hne; reflexivity).
    exists h, T, d. split; [reflexivity|exact Hh].
  - exfalso. apply Hne. rewrite afterTimedTaskId_tasks. apply handleStopTimer_tasks.
  - exfalso. apply Hne. rewrite afterTimedTaskId_tasks. apply checkPipClosed_tasks.
  - exfalso. apply Hne. reflexivity.
  - exfalso. apply Hne. rewrite afterIsDistracted_tasks. apply handleVisibilityChange_tasks.
  - exfalso. apply Hne. rewrite afterIsDistracted_tasks. apply handleOpenWidget_tasks.
  - exfalso. apply Hne. rewrite afterTimedTaskId_tasks. reflexivity.
  - right. left. exists l. split; [reflexivity|].
    destruct (Widget.importable l); [reflexivity|exfalso; apply Hne; reflexivity].
  - right. right. left. exists now, n, i, ef, dl. reflexivity.
  - right. right. right. exists l. reflexivity.
Qed.

Lemma widget_task_list_writers_witness :
  tasks (Widget.step (Widget.Pulse 1%positive) widgetSession) <> tasks widgetSession /\
  ((exists h T d, Widget.Pulse 1%positive = Widget.Pulse h /\
      intervals widgetSession !! h = Some (TickOfState T d)) \/
   (exists importedTasks, Widget.Pulse 1%positive = Widget.Import importedTasks /\
      Widget.importable importedTasks = true) \/
   (exists now name impact effort deadline,
      Widget.Pulse 1%positive = Widget.AddTask now name impact effort deadline) \/
   (exists savedTasks, Widget.Pulse 1%positive = Widget.Load savedTasks)).
Proof.
  assert (Hne : tasks (Widget.step (Widget.Pulse 1%positive) widgetSession) <> tasks widgetSession)
    by discriminate.
  split; [exact Hne|].
  exact (widget_task_list_writers (Widget.Pulse 1%positive) widgetSession Hne).
Defined.

(** X10.  [Widget] never has two timers running: in every state it can
    reach, two live intervals are one and the same, the one whose handle
    [timerIntervalRef] holds. *)
Theorem widget_single_interval (es : list Widget.Event) (h1 h2 : positive) :
  is_Some (intervals (reached es) !! h1) -> is_Some (intervals (reached es) !! h2) ->
  h1 = h2 /\ timerIntervalRef (reached es) = Some h1.
Proof.
  intros H1 H2. destruct (reached_owns es h1 H1) as [Hr1 _].
  destruct (reached_owns es h2 H2) as [Hr2 _]. split; [congruence|exact Hr1].
Qed.

Lemma widget_single_interval_witness :
  (is_Some (intervals (reached (take 4 closedWhileTiming)) !! 1%positive)) /\
  (1%positive = 1%positive /\
   timerIntervalRef (reached (take 4 closedWhileTiming)) = Some 1%positive).
Proof.
  assert (H : is_Some (intervals (reached (take 4 closedWhileTiming)) !! 1%positive))
    by (eexists; reflexivity).
  split; [exact H|].
  exact (widget_single_interval (take 4 closedWhileTiming) 1%positive 1%positive H H).
Defined.

Lemma sameClock_fresh s s' : sameClock s s' -> freshClosures s -> freshClosures s'.
Proof.
  intros (Hi & Ht & Hd) Hf h c Hc. rewrite Hi in Hc. rewrite Ht, Hd. exact (Hf h c Hc).
Qed.

Lemma no_intervals_fresh s : intervals s = ∅ -> freshClosures s.
Proof. intros He h c Hc. rewrite He, lookup_empty in Hc. discriminate Hc. Qed.

Lemma renderWidgetContent_clock s : sameClock s (Widget.renderWidgetContent s).
Proof.
  unfold Widget.renderWidgetContent. destruct (pipWindowRef s) as [w|]; [|repeat split].
  destruct (closed (windows s w)); repeat split.
Qed.

Lemma intervalCallback_clock T d s : sameClock s (Widget.intervalCallback T d s).
Proof. unfold Widget.intervalCallback. destruct (mapSt _ _ _). repeat split. Qed.

(** The timer effect leaves an interval that closes over the state it ran
    in. *)
Lemma timerEffect_fresh s : ownsIntervals s -> freshClosures (Widget.timerEffect s).
Proof.
  intros Ho. unfold Widget.timerEffect.
  set (s1 := if cleanup s then _ else s).
  assert (He : intervals s1 = ∅).
  { subst s1. destruct (cleanup s) eqn:Hc; [|apply owns_unowed; assumption].
    destruct (timerIntervalRef s) as [h|] eqn:Hr; [apply owns_delete | apply owns_empty];
      assumption. }
  assert (Hnone : freshClosures (setCleanup false s1))
    by (apply no_intervals_fresh; exact He).
  destruct (timedTaskId s1) as [T|] eqn:HT; [|exact Hnone].
  destruct (truthy (Some T)) eqn:Htr; [|exact Hnone].
  cbn. intros h c Hc. cbn in Hc. rewrite He in Hc.
  destruct (decide (nextTimerId s1 = h)) as [<-|Hne].
  - rewrite lookup_insert_eq in Hc. injection Hc as <-. exists T.
    split; [reflexivity|]. split; [exact HT|].
    cbn in Htr. intros ->. discriminate Htr.
  - rewrite lookup_insert_ne, lookup_empty in Hc by exact Hne. discriminate Hc.
Qed.

Lemma afterTimedTaskId_fresh prev s :
  ownsIntervals s -> freshClosures s -> freshClosures (Widget.afterTimedTaskId prev s).
Proof.
  intros Ho Hf. unfold Widget.afterTimedTaskId.
  destruct (decide (prev = timedTaskId s)); [exact Hf|].
  apply timerEffect_fresh, (sameTimers_owns s); [apply renderWidgetContent_timers|exact Ho].
Qed.

Lemma afterIsDistracted_fresh prev s0 s :
  ownsIntervals s -> freshClosures s0 ->
  intervals s = intervals s0 -> timedTaskId s = timedTaskId s0 -> isDistracted s0 = prev ->
  freshClosures (Widget.afterIsDistracted prev s).
Proof.
  intros Ho Hf Hi Ht Hp. unfold Widget.afterIsDistracted.
  destruct (Bool.eqb prev (isDistracted s)) eqn:He; [|apply timerEffect_fresh, Ho].
  apply Bool.eqb_prop in He. apply (sameClock_fresh s0); [|exact Hf].
  repeat split; congruence.
Qed.

Lemma handleVisibilityChange_session hidden s :
  intervals (Widget.handleVisibilityChange hidden s) = intervals s /\
  timedTaskId (Widget.handleVisibilityChange hidden s) = timedTaskId s.
Proof.
  unfold Widget.handleVisibilityChange. cbn. destruct (pipWindowRef s) as [w|]; [|split; reflexivity].
  destruct (closed (windows s w)); split; reflexivity.
Qed.

Lemma handleOpenWidget_session acq hidden s :
  intervals (fst (Widget.handleOpenWidget acq hidden s)) = intervals s /\
  timedTaskId (fst (Widget.handleOpenWidget acq hidden s)) = timedTaskId s.
Proof.
  split; [apply handleOpenWidget_timers|].
  unfold Widget.handleOpenWidget.
  destruct (match pipWindowRef s with Some w => negb (closed (windows s w)) | None => false end);
    [reflexivity|].
  destruct (truthy (timedTaskId s)); [reflexivity|].
  destruct acq as [|e|w]; cbn [fst]; try reflexivity.
  cbn [timedTaskId setIsDistracted].
  exact (proj1 (proj2 (renderWidgetContent_session
                         (setPipWindowRef (Some w) (setWidgetError None s))))).
Qed.

Lemma step_fresh e s :
  ownsIntervals s -> freshClosures s -> freshClosures (Widget.step e s).
Proof.
  intros Ho Hf. destruct e as [h| | |w|hidden|acq hidden|T|l|now n i ef dl|l]; cbn [Widget.step].
  - destruct (intervals s !! h) as [[T d|T w]|]; try exact Hf.
    apply (sameClock_fresh (Widget.intervalCallback T d s)); [apply renderWidgetContent_clock|].
    apply (sameClock_fresh s); [apply intervalCallback_clock|exact Hf].
  - apply afterTimedTaskId_fresh; [apply handleStopTimer_owns, Ho|].
    apply no_intervals_fresh, handleStopTimer_intervals, Ho.
  - apply afterTimedTaskId_fresh; [apply checkPipClosed_owns, Ho|].
    unfold Widget.checkPipClosed. destruct (pipWindowRef s) as [w|]; [|exact Hf].
    destruct (closed (windows s w)); [|exact Hf].
    apply no_intervals_fresh, handleStopTimer_intervals, Ho.
  - exact Hf.
  - destruct (handleVisibilityChange_session hidden s) as [Hi Ht].
    apply (afterIsDistracted_fresh _ s); try assumption; try reflexivity.
    apply (sameTimers_owns s); [apply handleVisibilityChange_timers|exact Ho].
  - destruct (handleOpenWidget_session acq hidden s) as [Hi Ht].
    apply (afterIsDistracted_fresh _ s); try assumption; try reflexivity.
    apply (sameTimers_owns s); [apply handleOpenWidget_timers|exact Ho].
  - unfold Widget.afterTimedTaskId. cbn [timedTaskId setTimedTaskId].
    destruct (decide (timedTaskId s = Some T)) as [He|Hne].
    + apply (sameClock_fresh s); [|exact Hf]. repeat split. cbn. congruence.
    + apply timerEffect_fresh, (sameTimers_owns (setTimedTaskId (Some T) s));
        [apply renderWidgetContent_timers|exact Ho].
  - destruct (Widget.importable l); [|exact Hf].
    apply (sameClock_fresh (setTasks (fun _ => l) s)); [apply renderWidgetContent_clock|exact Hf].
  - apply (sameClock_fresh (addTask now n i ef dl s)); [apply renderWidgetContent_clock|exact Hf].
  - apply (sameClock_fresh (setTasks (fun _ => l) s)); [apply renderWidgetContent_clock|exact Hf].
Qed.

Lemma reached_fresh es : freshClosures (reached es).
Proof.
  unfold reached, Widget.run.
  assert (H : forall s, ownsIntervals s -> freshClosures s ->
                ownsIntervals (fold_left (fun s e => Widget.step e s) es s) /\
                freshClosures (fold_left (fun s e => Widget.step e s) es s)).
  { induction es as [|e es IH]; intros s Ho Hf; cbn [fold_left]; [split; assumption|].
    apply IH; [apply step_owns, Ho | apply step_fresh; assumption]. }
  apply H; [apply no_intervals_owns | apply no_intervals_fresh]; reflexivity.
Qed.

(** X11.  In every state [Widget] can reach, a live interval times the task
    that is timed now with the distraction flag of now: what it closes over is
    [timedTaskId], a non-empty string, and [isDistracted].  Its pulse gives
    each task with that id one second, in [distractionTime] when the page is
    hidden and in [timeSpent] otherwise. *)
Theorem widget_interval_is_current (es : list Widget.Event) (h : positive) (c : Closure) :
  intervals (reached es) !! h = Some c ->
  exists T,
    c = TickOfState T (isDistracted (reached es)) /\
    timedTaskId (reached es) = Some T /\ T <> "" /\
    forall i t, tasks (reached es) !! i = Some t -> id t = T ->
      exists t', tasks (Widget.step (Widget.Pulse h) (reached es)) !! i = Some t' /\
                 credited [isDistracted (reached es)] t t'.
Proof.
  intros Hc. destruct (reached_fresh es h c Hc) as (T & -> & HT & Hne).
  exists T. split; [reflexivity|]. split; [exact HT|]. split; [exact Hne|].
  intros i t Hi Hid. cbn [Widget.step]. rewrite Hc.
  rewrite (proj1 (renderWidgetContent_session _)), Widget_intervalCallback_tasks.
  destruct (ticks_credited T [isDistracted (reached es)] (tasks (reached es)) i t Hi Hid)
    as (t' & Ht' & _ & Hcr).
  exists t'. split; [exact Ht'|exact Hcr].
Qed.

Lemma widget_interval_is_current_witness :
  intervals (reached (take 4 closedWhileTiming)) !! 1%positive =
    Some (TickOfState "task-1" false) /\
  exists T,
    TickOfState "task-1" false = TickOfState T (isDistracted (reached (take 4 closedWhileTiming))) /\
    timedTaskId (reached (take 4 closedWhileTiming)) = Some T /\ T <> "" /\
    forall i t, tasks (reached (take 4 closedWhileTiming)) !! i = Some t -> id t = T ->
      exists t', tasks (Widget.step (Widget.Pulse 1%positive)
                          (reached (take 4 closedWhileTiming))) !! i = Some t' /\
                 credited [isDistracted (reached (take 4 closedWhileTiming))] t t'.
Proof.
  split; [reflexivity|].
  exact (widget_interval_is_current (take 4 closedWhileTiming) 1%positive
           (TickOfState "task-1" false) eq_refl).
Defined.

(** ** [Widget]: what the window shows *)

Lemma patchWindow_frame a b w :
  closed (patchWindow a b w) = closed w /\
  distraction (document (patchWindow a b w)) = distraction (document w).
Proof.
  split; [reflexivity|]. unfold patchWindow, patchDisplay. cbn [document].
  destruct (getElementById (document w) "timer-display"); cbn;
    repeat match goal with |- context [match ?x with _ => _ end] => destruct x end;
    reflexivity.
Qed.

(** The interval callback neither opens or closes a window nor touches the
    class of its body. *)
Lemma Widget_tick_window T d s w :
  closed (windows (Widget.intervalCallback T d s) w) = closed (windows s w) /\
  distraction (document (windows (Widget.intervalCallback T d s) w)) =
    distraction (document (windows s w)).
Proof.
  unfold Widget.intervalCallback.
  pose proof (mapSt_snd (Widget.tickTask T d (pipWindowRef s))
                (fun ws => closed (ws w) = closed (windows s w) /\
                           distraction (document (ws w)) =
                             distraction (document (windows s w)))) as H.
  specialize (H ltac:(
    intros t ws Hws; unfold Widget.tickTask;
    destruct (String.eqb (id t) T); [|exact Hws];
    destruct (pipWindowRef s) as [w0|]; [|exact Hws];
    cbn; destruct (closed (ws w0)) eqn:Hc0; cbn; [exact Hws|];
    unfold upd; destruct (Pos.eqb_spec w w0) as [->|]; [|exact Hws];
    destruct (patchWindow_frame
                (if d then timeSpent t else timeSpent t + 1)
                (if d then distractionTime t + 1 else distractionTime t) (ws w0)) as [-> ->];
    exact Hws) (tasks s) (windows s) (conj eq_refl eq_refl)).
  destruct (mapSt _ (tasks s) (windows s)) as [ts ws]. exact H.
Qed.

Lemma findTask_credit T d ts t :
  findTask T ts = Some t -> findTask T (map (creditSecond T d) ts) = Some (creditSecond T d t).
Proof.
  unfold findTask. induction ts as [|a ts IH]; [discriminate|].
  cbn [map find]. rewrite creditSecond_id.
  destruct (String.eqb (id a) T); [intros [= ->]; reflexivity|exact IH].
Qed.

(** X12.  After a tick [Widget] writes its timer view anew from the task
    list: for a timed task whose name is plain text, the open window shows
    the name of the timed task and its new
    [timeSpent], and the distraction line is the hidden one of the markup,
    whatever the distraction time; the class of the body stays. *)
Theorem widget_display_after_tick (s : App) (h : positive) (T : string) (d : bool)
    (w : WinRef) (t : Task) :
  intervals s !! h = Some (TickOfState T d) ->
  timedTaskId s = Some T -> T <> "" ->
  pipWindowRef s = Some w -> closed (windows s w) = false ->
  findTask T (tasks s) = Some t -> plainText (name t) = true ->
  windows (Widget.step (Widget.Pulse h) s) w =
    mkWindow false (mkDocument (timerView (creditSecond T d t))
                      (distraction (document (windows s w)))) /\
  getElementById (document (windows (Widget.step (Widget.Pulse h) s) w)) "task-name" =
    Some (mkElement (name t) "") /\
  getElementById (document (windows (Widget.step (Widget.Pulse h) s) w)) "timer-display" =
    Some (mkElement (formatTime (if d then timeSpent t else timeSpent t + 1)) "") /\
  getElementById (document (windows (Widget.step (Widget.Pulse h) s) w)) "distraction-label" =
    Some (mkElement "Distraction: 00:00:00" "none") /\
  getElementById (document (windows (Widget.step (Widget.Pulse h) s) w)) "distraction-time" =
    Some (mkElement "00:00:00" "").
Proof.
  intros Hh HT Hne Hp Hc Hf _.
  assert (Hw : windows (Widget.step (Widget.Pulse h) s) w =
    mkWindow false (mkDocument (timerView (creditSecond T d t))
                      (distraction (document (windows s w))))).
  { cbn [Widget.step]. rewrite Hh.
    destruct (intervalCallback_session T d s) as [HT' Hp'].
    destruct (Widget_tick_window T d s w) as [Hc' Hd'].
    unfold Widget.renderWidgetContent.
    rewrite Hp', Hp, Hc', Hc, HT', HT, Hd', Widget_intervalCallback_tasks.
    rewrite (findTask_credit T d _ t Hf).
    assert (Htr : truthy (Some T) = true)
      by (cbn; destruct (String.eqb_spec T ""); [contradiction|reflexivity]).
    rewrite Htr. cbn. apply upd_eq. }
  split; [exact Hw|]. rewrite Hw.
  assert (Hid : id t = T) by (apply (findTask_Some T (tasks s)), Hf).
  unfold creditSecond. rewrite Hid, String.eqb_refl.
  unfold getElementById, timerView. cbn [document elements name timeSpent].
  repeat split; rewrite ?lookup_insert_ne by discriminate; apply lookup_insert_eq.
Qed.

Lemma widget_display_after_tick_witness :
  (intervals widgetSession !! 1%positive = Some (TickOfState "task-1" false) /\
   timedTaskId widgetSession = Some "task-1" /\ "task-1" <> "" /\
   pipWindowRef widgetSession = Some 1%positive /\
   closed (windows widgetSession 1%positive) = false /\
   findTask "task-1" (tasks widgetSession) = Some freshTask /\
   plainText (name freshTask) = true) /\
  getElementById (document (windows (Widget.step (Widget.Pulse 1%positive) widgetSession)
                              1%positive)) "timer-display" =
    Some (mkElement (formatTime (timeSpent freshTask + 1)) "").
Proof.
  split; [repeat split; discriminate|].
  exact (proj1 (proj2 (proj2 (widget_display_after_tick widgetSession 1%positive "task-1" false
           1%positive freshTask eq_refl eq_refl ltac:(discriminate) eq_refl eq_refl eq_refl
           eq_refl)))).
Defined.

(** X13.  "Open Focus Widget" asks for a window only when none is open and no
    task is timed.  With an open window, with a timed task, or when the
    browser gives no window, nothing changes but [widgetError]; and when a
    window is handed out, it becomes the handle, the flag is set from the
    visibility of the page, and tasks, timed task and intervals stay. *)
Theorem handleOpenWidget_guards (acq : Acquisition) (hidden : bool) (s : App) :
  ((exists w, pipWindowRef s = Some w /\ closed (windows s w) = false) \/
   truthy (timedTaskId s) = true \/ failed acq ->
   setWidgetError (widgetError s) (fst (Widget.handleOpenWidget acq hidden s)) = s) /\
  (forall pipWindow, acq = Granted pipWindow ->
   truthy (timedTaskId s) = false ->
   (forall w, pipWindowRef s = Some w -> closed (windows s w) = true) ->
   pipWindowRef (fst (Widget.handleOpenWidget acq hidden s)) = Some pipWindow /\
   isDistracted (fst (Widget.handleOpenWidget acq hidden s)) = hidden /\
   widgetError (fst (Widget.handleOpenWidget acq hidden s)) = None /\
   tasks (fst (Widget.handleOpenWidget acq hidden s)) = tasks s /\
   timedTaskId (fst (Widget.handleOpenWidget acq hidden s)) = timedTaskId s /\
   sameTimers s (fst (Widget.handleOpenWidget acq hidden s))).
Proof.
  split.
  - intros H. unfold Widget.handleOpenWidget.
    destruct s as [ts tid dis err pip tim cl li ivs nxt ws]. cbn in *.
    destruct (match pip with Some w => negb (closed (ws w)) | None => false end) eqn:Hfoc;
      [reflexivity|].
    destruct (truthy tid) eqn:Htr; [reflexivity|].
    destruct H as [(w & -> & Hc)|[H|H]]; [rewrite Hc in Hfoc; discriminate Hfoc|discriminate H|].
    destruct acq as [|e|w]; [reflexivity|reflexivity|contradiction].
  - intros w -> Htr Hcl.
    destruct (handleOpenWidget_session (Granted w) hidden s) as [_ Ht].
    split; [|split; [|split; [|split; [apply handleOpenWidget_tasks|split;
      [exact Ht|apply handleOpenWidget_timers]]]]];
    unfold Widget.handleOpenWidget; rewrite Htr;
    (destruct (pipWindowRef s) as [w0|] eqn:Hp;
       [rewrite (Hcl w0 eq_refl)|]); cbn [negb fst];
    try reflexivity.
    all: cbn [pipWindowRef setIsDistracted widgetError];
      unfold Widget.renderWidgetContent; cbn [pipWindowRef setPipWindowRef setWidgetError];
      cbn; destruct (closed (windows s w)); reflexivity.
Qed.

Lemma handleOpenWidget_guards_witness :
  (truthy (timedTaskId widgetSession) = true /\
   setWidgetError (widgetError widgetSession)
     (fst (Widget.handleOpenWidget (Granted 2%positive) true widgetSession)) = widgetSession) /\
  (truthy (timedTaskId twoTasks) = false /\
   pipWindowRef (fst (Widget.handleOpenWidget (Granted 2%positive) true twoTasks)) =
     Some 2%positive /\
   isDistracted (fst (Widget.handleOpenWidget (Granted 2%positive) true twoTasks)) = true).
Proof.
  split.
  - split; [reflexivity|].
    exact (proj1 (handleOpenWidget_guards (Granted 2%positive) true widgetSession)
             (or_intror (or_introl eq_refl))).
  - split; [reflexivity|].
    destruct (proj2 (handleOpenWidget_guards (Granted 2%positive) true twoTasks)
                2%positive eq_refl eq_refl ltac:(intros w Hw; discriminate Hw))
      as (H1 & H2 & _).
    split; assumption.
Defined.

(** ** [Direct]: the session from start to stop *)

Lemma Direct_stop_intervals s : ownsIntervals s -> intervals (Direct.handleStopTimer s) = ∅.
Proof.
  intros Ho. pose proof (owns_empty s Ho) as He. pose proof (owns_delete s) as Hd.
  unfold Direct.handleStopTimer.
  destruct s as [ts tid dis err pip tim cl li ivs nxt ws]; cbn in *.
  destruct tim as [h|]; cbn; destruct pip as [w|]; cbn;
    first [apply (Hd h Ho eq_refl) | apply He; reflexivity].
Qed.

Lemma Direct_stop_frame s :
  tasks (Direct.handleStopTimer s) = tasks s /\
  cleanup (Direct.handleStopTimer s) = cleanup s /\
  listening (Direct.handleStopTimer s) = listening s /\
  isDistracted (Direct.handleStopTimer s) = isDistracted s.
Proof.
  unfold Direct.handleStopTimer.
  destruct s as [ts tid dis err pip tim cl li ivs nxt ws]; cbn.
  destruct tim as [h|]; cbn; destruct pip as [w|]; cbn; repeat split.
Qed.

Lemma Direct_start_frame taskId acq s :
  sameTimers s (fst (Direct.handleStartTimer taskId acq s)) /\
  listening (fst (Direct.handleStartTimer taskId acq s)) = listening s /\
  tasks (fst (Direct.handleStartTimer taskId acq s)) = tasks s /\
  isDistracted (fst (Direct.handleStartTimer taskId acq s)) = isDistracted s.
Proof.
  unfold Direct.handleStartTimer. destruct (truthy (timedTaskId s)); [repeat split|].
  destruct (findTask taskId (tasks s)); [|repeat split].
  destruct acq; repeat split.
Qed.

(** One run of the effect, from a state whose intervals are owned and whose
    listener goes with the cleanup. *)
Lemma Direct_effect_session s :
  ownsIntervals s -> listening s = cleanup s ->
  directSession (Direct.effect s) /\
  tasks (Direct.effect s) = tasks s /\
  isDistracted (Direct.effect s) = isDistracted s /\
  (timedTaskId (Direct.effect s) = timedTaskId s \/
   (timedTaskId (Direct.effect s) = None /\ cleanup (Direct.effect s) = false)).
Proof.
  intros Ho Hl. unfold Direct.effect. destruct (cleanup s) eqn:Hc.
  - (* the cleanup stops whatever session there is; the body finds no window *)
    unfold Direct.effectCleanup.
    pose proof (Direct_stop_intervals (setListening false s) Ho) as He.
    destruct (Part000_stop_tornDown (setListening false s)) as [(H1 & H2 & H3) _].
    destruct (Direct_stop_frame (setListening false s)) as (Ht & Hcl & Hli & Hd).
    change (Part000.handleStopTimer (setListening false s))
      with (Direct.handleStopTimer (setListening false s)) in *.
    set (s1 := Direct.handleStopTimer (setListening false s)) in *.
    assert (Hb : Direct.effectBody (timedTaskId s) s1 = setCleanup false s1)
      by (unfold Direct.effectBody; rewrite H2; destruct (timedTaskId s); reflexivity).
    rewrite Hb. cbn. split; [|split; [exact Ht|split; [exact Hd|right; split; [exact H1|reflexivity]]]].
    split; [apply no_intervals_owns; exact He|]. split; [exact Hli|]. discriminate.
  - (* no cleanup is owed: no interval is live *)
    pose proof (owns_unowed s Ho Hc) as He. unfold Direct.effectBody.
    destruct (timedTaskId s) as [T|] eqn:HT;
      [destruct (pipWindowRef s) as [w|] eqn:Hp; [destruct (truthy (Some T)) eqn:Htr|]|];
      cbn; (split; [|split; [reflexivity|split; [reflexivity|left; assumption]]]).
    + split; [|split; [reflexivity|intros _; rewrite HT, Hp; cbn in *; repeat split; eauto]].
      intros h [c Hh]. cbn in Hh. rewrite He in Hh.
      destruct (decide (nextTimerId s = h)) as [<-|Hne]; [split; reflexivity|].
      rewrite lookup_insert_ne, lookup_empty in Hh by exact Hne. discriminate Hh.
    + split; [apply no_intervals_owns; exact He|]. split; [exact Hl|discriminate].
    + split; [apply no_intervals_owns; exact He|]. split; [exact Hl|discriminate].
    + split; [apply no_intervals_owns; exact He|]. split; [exact Hl|discriminate].
Qed.

Lemma Direct_after_session prev s :
  ownsIntervals s -> listening s = cleanup s -> (prev = timedTaskId s -> directSession s) ->
  directSession (Direct.afterTimedTaskId prev s) /\
  tasks (Direct.afterTimedTaskId prev s) = tasks s /\
  isDistracted (Direct.afterTimedTaskId prev s) = isDistracted s.
Proof.
  intros Ho Hl Hsame. unfold Direct.afterTimedTaskId.
  destruct (decide (prev = timedTaskId s)) as [He|_];
    [split; [exact (Hsame He)|split; reflexivity]|].
  destruct (Direct_effect_session s Ho Hl) as (Hs1 & Ht1 & Hd1 & _).
  destruct (decide (timedTaskId (Direct.effect s) = timedTaskId s));
    [split; [exact Hs1|split; assumption]|].
  destruct Hs1 as (Ho1 & Hl1 & _).
  destruct (Direct_effect_session (Direct.effect s) Ho1 Hl1) as (Hs2 & Ht2 & Hd2 & _).
  split; [exact Hs2|split; congruence].
Qed.

Lemma directSession_frame s s' :
  sameTimers s s' -> listening s' = listening s -> timedTaskId s' = timedTaskId s ->
  pipWindowRef s' = pipWindowRef s -> directSession s -> directSession s'.
Proof.
  intros Hs Hli Ht Hp (Ho & Hl & Hc).
  split; [apply (sameTimers_owns s); assumption|].
  destruct Hs as (Hi & Hr & Hcl). split; [congruence|].
  rewrite Hcl, Ht, Hp, Hr. exact Hc.
Qed.

Lemma handleFileChange_frame r confirmed s :
  sameTimers s (fst (handleFileChange r confirmed s)) /\
  listening (fst (handleFileChange r confirmed s)) = listening s /\
  timedTaskId (fst (handleFileChange r confirmed s)) = timedTaskId s /\
  pipWindowRef (fst (handleFileChange r confirmed s)) = pipWindowRef s /\
  isDistracted (fst (handleFileChange r confirmed s)) = isDistracted s.
Proof.
  unfold handleFileChange. destruct r as [| |m| |l]; cbn; try (repeat split; fail).
  destruct (Widget.importable l); [destruct confirmed|]; repeat split.
Qed.

Lemma Direct_step_session e s : directSession s -> directSession (Direct.step e s).
Proof.
  intros Hs. pose proof Hs as (Ho & Hl & Hc).
  destruct e as [h| |hidden|taskId acq|now n i e d|r confirmed]; cbn [Direct.step].
  - destruct (intervals s !! h) as [[T d|T w]|]; try exact Hs.
    apply (directSession_frame s); [| | | |exact Hs];
      unfold Direct.intervalCallback; destruct (mapSt _ _ _); repeat split.
  - destruct (Direct_stop_frame s) as (_ & Hcl & Hli & _).
    apply Direct_after_session.
    + apply no_intervals_owns, Direct_stop_intervals, Ho.
    + congruence.
    + intros Hprev. split; [apply no_intervals_owns, Direct_stop_intervals, Ho|].
      split; [congruence|]. rewrite Hcl. intros Hct. destruct (Hc Hct) as (Htr & _).
      rewrite Hprev in Htr.
      destruct (Part000_stop_tornDown s) as [(H1 & _) _].
      change (Part000.handleStopTimer s) with (Direct.handleStopTimer s) in H1.
      rewrite H1 in Htr. discriminate Htr.
  - destruct (listening s); [|exact Hs].
    apply (directSession_frame s); [| | | |exact Hs];
      unfold Direct.handleVisibilityChange; cbn;
      destruct (pipWindowRef s) eqn:Hp; repeat split; assumption.
  - destruct (Direct_start_frame taskId acq s) as (Hsame & Hli & _).
    apply Direct_after_session.
    + apply (sameTimers_owns s); assumption.
    + destruct Hsame as (_ & _ & Hcl). congruence.
    + intros Hprev.
      destruct (truthy (timedTaskId s)) eqn:Htr.
      * unfold Direct.handleStartTimer. rewrite Htr. exact Hs.
      * split; [apply (sameTimers_owns s); assumption|].
        destruct Hsame as (_ & _ & Hcl). split; [congruence|].
        rewrite Hcl. intros Hct. destruct (Hc Hct) as (Htr' & _). congruence.
  - apply (directSession_frame s); [| | | |exact Hs]; repeat split.
  - destruct (handleFileChange_frame r confirmed s) as (H1 & H2 & H3 & H4 & _).
    apply (directSession_frame s); assumption.
Qed.

Lemma Direct_run_session es : forall s, directSession s -> directSession (Direct.run es s).
Proof.
  unfold Direct.run. induction es as [|e es IH]; intros s Hs; cbn [fold_left]; [exact Hs|].
  apply IH, Direct_step_session, Hs.
Qed.

Lemma reachedDirect_session es : directSession (reachedDirect es).
Proof.
  apply Direct_run_session. split; [apply no_intervals_owns; reflexivity|].
  split; [reflexivity|discriminate].
Qed.

Lemma Direct_effect_idle s :
  Idle s -> intervals s = ∅ -> listening s = cleanup s ->
  Idle (Direct.effect s) /\ intervals (Direct.effect s) = ∅ /\
  listening (Direct.effect s) = false /\ tasks (Direct.effect s) = tasks s /\
  isDistracted (Direct.effect s) = isDistracted s.
Proof.
  intros (H1 & H2 & H3) He Hl.
  destruct s as [ts tid dis err pip tim cl li ivs nxt ws]; cbn in *; subst.
  unfold Direct.effect, Direct.effectBody, Direct.effectCleanup, Direct.handleStopTimer, Idle.
  destruct cl; cbn; repeat split.
Qed.

Lemma Direct_pagehide_result s :
  directSession s ->
  Idle (Direct.step Direct.Pagehide s) /\ intervals (Direct.step Direct.Pagehide s) = ∅ /\
  listening (Direct.step Direct.Pagehide s) = false /\
  tasks (Direct.step Direct.Pagehide s) = tasks s /\
  isDistracted (Direct.step Direct.Pagehide s) = isDistracted s.
Proof.
  intros (Ho & Hl & Hc). cbn [Direct.step].
  destruct (Part000_stop_tornDown s) as [Hidle _].
  change (Part000.handleStopTimer s) with (Direct.handleStopTimer s) in Hidle.
  pose proof (Direct_stop_intervals s Ho) as He.
  destruct (Direct_stop_frame s) as (Ht & Hcl & Hli & Hd).
  unfold Direct.afterTimedTaskId.
  destruct (decide (timedTaskId s = timedTaskId (Direct.handleStopTimer s))) as [Heq|_].
  - split; [exact Hidle|]. split; [exact He|]. split; [|split; assumption].
    rewrite Hli, Hl. destruct (cleanup s); [|reflexivity].
    destruct (Hc eq_refl) as (Htr & _). rewrite Heq, (proj1 Hidle) in Htr. discriminate Htr.
  - destruct (Direct_effect_idle (Direct.handleStopTimer s) Hidle He ltac:(congruence))
      as (Hidle' & He' & Hl' & Ht' & Hd').
    destruct (decide (timedTaskId (Direct.effect (Direct.handleStopTimer s)) =
                      timedTaskId (Direct.handleStopTimer s))) as [_|Hne].
    + split; [exact Hidle'|]. split; [exact He'|]. split; [exact Hl'|]. split; congruence.
    + exfalso. apply Hne. rewrite (proj1 Hidle'), (proj1 Hidle). reflexivity.
Qed.

Lemma Direct_pulses_idle pulses : forall s,
  intervals s = ∅ -> Direct.run (map Direct.Pulse pulses) s = s.
Proof.
  unfold Direct.run. induction pulses as [|h pulses IH]; intros s He; cbn [map fold_left];
    [reflexivity|].
  cbn [Direct.step]. rewrite He, lookup_empty. apply IH, He.
Qed.

(** X14.  [Direct]: in every state the component can reach, the ['pagehide']
    of the timer window ends the session for good.  Afterwards there is no
    timed task, no handle, no live interval and no visibility listener, the
    task list is the one at the event, and pulses injected later, for whatever
    handle, change nothing. *)
Theorem direct_pagehide_stops_ticking (es : list Direct.Event) (pulses : list positive) :
  Idle (Direct.step Direct.Pagehide (reachedDirect es)) /\
  intervals (Direct.step Direct.Pagehide (reachedDirect es)) = ∅ /\
  listening (Direct.step Direct.Pagehide (reachedDirect es)) = false /\
  tasks (Direct.step Direct.Pagehide (reachedDirect es)) = tasks (reachedDirect es) /\
  Direct.run (map Direct.Pulse pulses) (Direct.step Direct.Pagehide (reachedDirect es)) =
    Direct.step Direct.Pagehide (reachedDirect es).
Proof.
  destruct (Direct_pagehide_result (reachedDirect es) (reachedDirect_session es))
    as (Hidle & He & Hl & Ht & _).
  split; [exact Hidle|]. split; [exact He|]. split; [exact Hl|]. split; [exact Ht|].
  apply Direct_pulses_idle, He.
Qed.

(** A state without session that the invariant allows owes no cleanup and
    has no live interval. *)
Lemma directSession_idle s :
  directSession s -> Idle s -> cleanup s = false /\ listening s = false /\ intervals s = ∅.
Proof.
  intros (Ho & Hl & Hc) (H1 & _).
  assert (Hcl : cleanup s = false).
  { destruct (cleanup s); [|reflexivity]. destruct (Hc eq_refl) as (Htr & _).
    rewrite H1 in Htr. discriminate Htr. }
  split; [exact Hcl|]. split; [congruence|]. apply owns_unowed; assumption.
Qed.

Lemma Direct_start_granted s taskId task w :
  Idle s -> cleanup s = false -> intervals s = ∅ ->
  findTask taskId (tasks s) = Some task -> taskId <> "" ->
  timedTaskId (Direct.step (Direct.StartTimer taskId (Granted w)) s) = Some taskId /\
  pipWindowRef (Direct.step (Direct.StartTimer taskId (Granted w)) s) = Some w /\
  timerIntervalRef (Direct.step (Direct.StartTimer taskId (Granted w)) s) = Some (nextTimerId s) /\
  intervals (Direct.step (Direct.StartTimer taskId (Granted w)) s) =
    {[nextTimerId s := TickOfRef taskId w]} /\
  listening (Direct.step (Direct.StartTimer taskId (Granted w)) s) = true /\
  tasks (Direct.step (Direct.StartTimer taskId (Granted w)) s) = tasks s /\
  isDistracted (Direct.step (Direct.StartTimer taskId (Granted w)) s) = isDistracted s /\
  windows (Direct.step (Direct.StartTimer taskId (Granted w)) s) w =
    mkWindow (closed (windows s w))
      (mkDocument (timerView task) (distraction (document (windows s w)))).
Proof.
  intros (H1 & H2 & H3) Hcl He Hf Hne.
  assert (Ht : String.eqb taskId "" = false) by (apply String.eqb_neq, Hne).
  destruct s as [ts tid dis err pip tim cl li ivs nxt ws]; cbn in *; subst.
  unfold Direct.handleStartTimer. cbn. rewrite Hf. cbn.
  unfold Direct.afterTimedTaskId. cbn.
  destruct (decide (None = Some taskId)) as [Hd|_]; [discriminate Hd|].
  unfold Direct.effect, Direct.effectBody. cbn. rewrite Ht. cbn.
  destruct (decide (Some taskId = Some taskId)) as [_|Hd]; [|contradiction].
  cbn. rewrite upd_eq. repeat split.
Qed.

(** X15.  [Direct]: from a state without session that the component can
    reach, "Start Timer" on a task of the list whose id is not empty, the
    window being handed out, opens the session: the task is the timed one,
    the window is the handle and, the name of the task being plain text,
    shows the time spent so far, one interval is live, the visibility listener is on and no task has
    changed; the first pulse of the interval gives the task its second. *)
Theorem direct_start_opens_session (es : list Direct.Event) (taskId : string) (task : Task)
    (w : WinRef) :
  Idle (reachedDirect es) -> findTask taskId (tasks (reachedDirect es)) = Some task ->
  taskId <> "" ->
  timedTaskId (Direct.step (Direct.StartTimer taskId (Granted w)) (reachedDirect es)) =
    Some taskId /\
  pipWindowRef (Direct.step (Direct.StartTimer taskId (Granted w)) (reachedDirect es)) =
    Some w /\
  intervals (Direct.step (Direct.StartTimer taskId (Granted w)) (reachedDirect es)) =
    {[nextTimerId (reachedDirect es) := TickOfRef taskId w]} /\
  timerIntervalRef (Direct.step (Direct.StartTimer taskId (Granted w)) (reachedDirect es)) =
    Some (nextTimerId (reachedDirect es)) /\
  listening (Direct.step (Direct.StartTimer taskId (Granted w)) (reachedDirect es)) = true /\
  tasks (Direct.step (Direct.StartTimer taskId (Granted w)) (reachedDirect es)) =
    tasks (reachedDirect es) /\
  (plainText (name task) = true ->
   getElementById
     (document (windows (Direct.step (Direct.StartTimer taskId (Granted w)) (reachedDirect es)) w))
     "timer-display" = Some (mkElement (formatTime (timeSpent task)) "")) /\
  forall i t, tasks (reachedDirect es) !! i = Some t -> id t = taskId ->
    exists t',
      tasks (Direct.step (Direct.Pulse (nextTimerId (reachedDirect es)))
               (Direct.step (Direct.StartTimer taskId (Granted w)) (reachedDirect es))) !! i =
        Some t' /\
      credited [isDistracted (reachedDirect es)] t t'.
Proof.
  intros Hidle Hf Hne.
  destruct (directSession_idle _ (reachedDirect_session es) Hidle) as (Hcl & _ & He).
  destruct (Direct_start_granted (reachedDirect es) taskId task w Hidle Hcl He Hf Hne)
    as (HT & Hp & Hr & Hi & Hl & Hts & Hd & Hw).
  generalize dependent (Direct.step (Direct.StartTimer taskId (Granted w)) (reachedDirect es)).
  intros r HT Hp Hr Hi Hl Hts Hd Hw.
  split; [exact HT|]. split; [exact Hp|]. split; [exact Hi|]. split; [exact Hr|].
  split; [exact Hl|]. split; [exact Hts|]. split.
  - intros _. rewrite Hw. unfold getElementById, timerView. cbn [document elements].
    rewrite lookup_insert_ne by discriminate. apply lookup_insert_eq.
  - intros i t Hti Hid. cbn [Direct.step]. rewrite Hi, lookup_singleton_eq.
    rewrite Direct_intervalCallback_eq, Part000_intervalCallback_tasks, Hts, Hd.
    destruct (ticks_credited taskId [isDistracted (reachedDirect es)]
                (tasks (reachedDirect es)) i t Hti Hid) as (t' & Ht' & _ & Hcr).
    exists t'. split; [exact Ht'|exact Hcr].
Qed.

Lemma direct_start_opens_session_witness :
  (Idle (reachedDirect (take 1 hiddenWhileTiming)) /\
   findTask "task-1" (tasks (reachedDirect (take 1 hiddenWhileTiming))) = Some freshTask /\
   "task-1" <> "" /\ plainText (name freshTask) = true) /\
  timedTaskId (Direct.step (Direct.StartTimer "task-1" (Granted 1%positive))
                 (reachedDirect (take 1 hiddenWhileTiming))) = Some "task-1" /\
  intervals (Direct.step (Direct.StartTimer "task-1" (Granted 1%positive))
               (reachedDirect (take 1 hiddenWhileTiming))) =
    {[nextTimerId (reachedDirect (take 1 hiddenWhileTiming)) := TickOfRef "task-1" 1%positive]} /\
  getElementById
    (document (windows (Direct.step (Direct.StartTimer "task-1" (Granted 1%positive))
                          (reachedDirect (take 1 hiddenWhileTiming))) 1%positive))
    "timer-display" = Some (mkElement (formatTime (timeSpent freshTask)) "").
Proof.
  assert (Hidle : Idle (reachedDirect (take 1 hiddenWhileTiming))) by (repeat split).
  split; [split; [exact Hidle|split; [reflexivity|split; [discriminate|reflexivity]]]|].
  destruct (direct_start_opens_session (take 1 hiddenWhileTiming) "task-1" freshTask 1%positive
              Hidle eq_refl ltac:(discriminate)) as (H1 & _ & H3 & _ & _ & _ & H7 & _).
  split; [exact H1|split; [exact H3|exact (H7 eq_refl)]].
Defined.

Lemma Direct_visibility_unheard bs : forall s,
  listening s = false -> Direct.run (map Direct.VisibilityChange bs) s = s.
Proof.
  unfold Direct.run. induction bs as [|b bs IH]; intros s Hl; cbn [map fold_left];
    [reflexivity|].
  cbn [Direct.step]. rewrite Hl. apply IH, Hl.
Qed.

(** X16.  [Direct] never resets the distraction flag: a stop keeps it, the
    visibility listener is gone until the next session, and a start keeps it
    too.  So whatever the page does between two sessions, the flag a new
    session starts with is the one the last session ended with. *)
Theorem direct_flag_outlives_session (es : list Direct.Event) (bs : list bool)
    (taskId : string) (acq : Acquisition) :
  isDistracted
    (Direct.run (Direct.Pagehide :: map Direct.VisibilityChange bs ++
                 [Direct.StartTimer taskId acq]) (reachedDirect es)) =
  isDistracted (reachedDirect es).
Proof.
  unfold Direct.run. cbn [fold_left]. rewrite fold_left_app. cbn [fold_left].
  pose proof (reachedDirect_session es) as Hs.
  destruct (Direct_pagehide_result _ Hs) as (_ & _ & Hl & _ & Hd).
  pose proof (Direct_step_session Direct.Pagehide _ Hs) as Hs1.
  fold (Direct.run (map Direct.VisibilityChange bs)
          (Direct.step Direct.Pagehide (reachedDirect es))).
  rewrite (Direct_visibility_unheard bs _ Hl).
  generalize dependent (Direct.step Direct.Pagehide (reachedDirect es)).
  intros s1 Hl Hd (Ho & Hlc & Hc). cbn [Direct.step].
  destruct (Direct_start_frame taskId acq s1) as (Hsame & Hli & _ & Hd1).
  destruct (Direct_after_session (timedTaskId s1) (fst (Direct.handleStartTimer taskId acq s1)))
    as (_ & _ & Hd2).
  - apply (sameTimers_owns s1); assumption.
  - destruct Hsame as (_ & _ & Hcl). congruence.
  - intros Hprev. split; [apply (sameTimers_owns s1); assumption|].
    destruct Hsame as (_ & _ & Hcl). split; [congruence|].
    rewrite Hcl. intros Hct. rewrite <- Hlc, Hl in Hct. discriminate Hct.
  - congruence.
Qed.

(** The session of [hiddenWhileTiming] is closed and, the page visible
    again, the timer is started anew: the tick goes to the distraction
    time. *)
Example direct_stale_flag :
  tasks (Direct.run [Direct.Pagehide; Direct.VisibilityChange false;
                     Direct.StartTimer "task-1" (Granted 2%positive);
                     Direct.Pulse 2%positive] (reachedDirect hiddenWhileTiming)) =
  [mkTask "task-1" "Write report" 5 5 "2025-01-01" todo 0 1].
Proof. reflexivity. Qed.

(** ** Starts that find no task, or a task without id *)

(** X17.  A start for an id that no task has, from a state without session:
    [Direct] does nothing and says nothing; [Part000] keeps the id as timed
    task although no window is asked for and no interval runs, and from then
    on rejects every start.  A start in [Direct] on a task whose id is the
    empty string opens the window and writes the timer view (as modelled for
    a task whose name is plain text), but no interval is created. *)
Theorem start_without_task (s : App) (taskId : string) (acq : Acquisition) :
  Idle s -> cleanup s = false ->
  (findTask taskId (tasks s) = None ->
   Direct.step (Direct.StartTimer taskId acq) s = s /\
   snd (Direct.handleStartTimer taskId acq s) = []) /\
  (findTask taskId (tasks s) = None -> taskId <> "" ->
   timedTaskId (fst (Part000.start taskId acq s)) = Some taskId /\
   pipWindowRef (fst (Part000.start taskId acq s)) = None /\
   timerIntervalRef (fst (Part000.start taskId acq s)) = None /\
   intervals (fst (Part000.start taskId acq s)) = intervals s /\
   cleanup (fst (Part000.start taskId acq s)) = false /\
   snd (Part000.start taskId acq s) = [] /\
   forall taskId2 acq2,
     Part000.start taskId2 acq2 (fst (Part000.start taskId acq s)) =
       (fst (Part000.start taskId acq s), alreadyRunning)) /\
  (forall task w, findTask "" (tasks s) = Some task ->
   pipWindowRef (Direct.step (Direct.StartTimer "" (Granted w)) s) = Some w /\
   timedTaskId (Direct.step (Direct.StartTimer "" (Granted w)) s) = Some "" /\
   timerIntervalRef (Direct.step (Direct.StartTimer "" (Granted w)) s) = None /\
   intervals (Direct.step (Direct.StartTimer "" (Granted w)) s) = intervals s /\
   (plainText (name task) = true ->
    document (windows (Direct.step (Direct.StartTimer "" (Granted w)) s) w) =
      mkDocument (timerView task) (distraction (document (windows s w))))).
Proof.
  intros (H1 & H2 & H3) Hcl.
  destruct s as [ts tid dis err pip tim cl li ivs nxt ws]; cbn in *; subst.
  split; [|split].
  - intros Hf. cbn [Direct.step]. unfold Direct.handleStartTimer. cbn. rewrite Hf. cbn.
    unfold Direct.afterTimedTaskId. cbn.
    destruct (decide (None = None)) as [_|Hd]; [split; reflexivity|contradiction].
  - intros Hf Hne.
    assert (Ht : String.eqb taskId "" = false) by (apply String.eqb_neq, Hne).
    assert (Hstart : Part000.start taskId acq
              (mkApp ts None dis err None None false li ivs nxt ws) =
              (mkApp ts (Some taskId) dis err None None false li ivs nxt ws, [])).
    { unfold Part000.start, Part000.handleStartTimer. cbn.
      destruct (decide (Some taskId = None)) as [Hd|_]; [discriminate Hd|].
      unfold Part000.effect, Part000.effectBody. cbn. rewrite Ht, Hf. cbn.
      destruct (decide (Some taskId = Some taskId)) as [_|Hd]; [reflexivity|contradiction]. }
    rewrite Hstart. cbn. repeat split.
    intros taskId2 acq2. unfold Part000.start, Part000.handleStartTimer. cbn. rewrite Ht. cbn.
    destruct (decide (Some taskId = Some taskId)) as [_|Hd]; [reflexivity|contradiction].
  - intros task w Hf. cbn [Direct.step]. unfold Direct.handleStartTimer. cbn. rewrite Hf. cbn.
    unfold Direct.afterTimedTaskId. cbn.
    destruct (decide (None = Some "")) as [Hd|_]; [discriminate Hd|].
    unfold Direct.effect, Direct.effectBody. cbn.
    destruct (decide (Some "" = Some "")) as [_|Hd]; [|contradiction].
    cbn. rewrite upd_eq. split; [|split; [|split; [|split]]]; reflexivity.
Qed.

Lemma start_without_task_witness :
  (Idle twoTasks /\ cleanup twoTasks = false /\
   findTask "task-9" (tasks twoTasks) = None /\ "task-9" <> "" /\
   findTask "" (tasks blankId) = Some (mkTask "" "Untitled" 1 1 "2025-01-03" todo 0 0) /\
   plainText "Untitled" = true) /\
  Direct.step (Direct.StartTimer "task-9" (Granted 1%positive)) twoTasks = twoTasks /\
  timedTaskId (fst (Part000.start "task-9" (Granted 1%positive) twoTasks)) = Some "task-9" /\
  timerIntervalRef (Direct.step (Direct.StartTimer "" (Granted 1%positive)) blankId) = None /\
  getElementById
    (document (windows (Direct.step (Direct.StartTimer "" (Granted 1%positive)) blankId)
                 1%positive)) "task-name" = Some (mkElement "Untitled" "").
Proof.
  assert (Hidle : Idle twoTasks) by (repeat split).
  assert (Hidle' : Idle blankId) by (repeat split).
  split; [split; [exact Hidle|repeat split; discriminate]|].
  destruct (start_without_task twoTasks "task-9" (Granted 1%positive) Hidle eq_refl)
    as (Hd & Hp & _).
  destruct (start_without_task blankId "" (Granted 1%positive) Hidle' eq_refl)
    as (_ & _ & Hb).
  split; [exact (proj1 (Hd eq_refl))|].
  split; [exact (proj1 (Hp eq_refl ltac:(discriminate)))|].
  destruct (Hb _ 1%positive eq_refl) as (_ & _ & Hi & _ & Hdoc).
  split; [exact Hi|]. rewrite (Hdoc eq_refl). reflexivity.
Defined.

(** X18.  [Part000]: from a state without session that owes no cleanup,
    "Start Timer" on a task of the list whose id is not empty, the window
    being handed out, opens the session without a word: the task is the timed
    one, the window is the handle, a new interval is live beside those there
    were, the visibility listener is on, and no task has changed; when the
    name of the task is plain text, the window shows that name and the time
    spent so far, with the distraction line hidden. *)
Theorem part000_start_opens_session (s : App) (taskId : string) (task : Task) (w : WinRef) :
  Idle s -> cleanup s = false -> findTask taskId (tasks s) = Some task -> taskId <> "" ->
  snd (Part000.start taskId (Granted w) s) = [] /\
  timedTaskId (fst (Part000.start taskId (Granted w) s)) = Some taskId /\
  pipWindowRef (fst (Part000.start taskId (Granted w) s)) = Some w /\
  timerIntervalRef (fst (Part000.start taskId (Granted w) s)) = Some (nextTimerId s) /\
  intervals (fst (Part000.start taskId (Granted w) s)) =
    <[nextTimerId s := TickOfRef taskId w]> (intervals s) /\
  listening (fst (Part000.start taskId (Granted w) s)) = true /\
  tasks (fst (Part000.start taskId (Granted w) s)) = tasks s /\
  (plainText (name task) = true ->
   windows (fst (Part000.start taskId (Granted w) s)) w =
     mkWindow (closed (windows s w))
       (mkDocument (timerView task) (distraction (document (windows s w)))) /\
   getElementById (document (windows (fst (Part000.start taskId (Granted w) s)) w))
     "timer-display" = Some (mkElement (formatTime (timeSpent task)) "") /\
   getElementById (document (windows (fst (Part000.start taskId (Granted w) s)) w))
     "distraction-label" = Some (mkElement "Distraction: 00:00:00" "none")).
Proof.
  intros (H1 & H2 & H3) Hcl Hf Hne.
  assert (Ht : String.eqb taskId "" = false) by (apply String.eqb_neq, Hne).
  destruct s as [ts tid dis err pip tim cl li ivs nxt ws]; cbn in *; subst.
  assert (Hstart : Part000.start taskId (Granted w)
            (mkApp ts None dis err None None false li ivs nxt ws) =
            (mkApp ts (Some taskId) dis err (Some w) (Some nxt) true true
               (<[nxt := TickOfRef taskId w]> ivs) (Pos.succ nxt)
               (upd w (mkWindow (closed (ws w))
                         (mkDocument (timerView task) (distraction (document (ws w))))) ws),
             [])).
  { unfold Part000.start, Part000.handleStartTimer. cbn.
    destruct (decide (Some taskId = None)) as [Hd|_]; [discriminate Hd|].
    unfold Part000.effect, Part000.effectBody. cbn. rewrite Ht, Hf. cbn.
    destruct (decide (Some taskId = Some taskId)) as [_|Hd]; [reflexivity|contradiction]. }
  rewrite Hstart. cbn [fst snd timedTaskId pipWindowRef timerIntervalRef intervals listening
                        tasks windows nextTimerId].
  rewrite upd_eq. cbn [document closed].
  do 7 (split; [reflexivity|]). intros _.
  repeat split; unfold getElementById, timerView; cbn [elements];
    rewrite ?lookup_insert_ne by discriminate; apply lookup_insert_eq.
Qed.

Lemma part000_start_opens_session_witness :
  (Idle twoTasks /\ cleanup twoTasks = false /\
   findTask "task-2" (tasks twoTasks) = Some timedTask /\ "task-2" <> "" /\
   plainText (name timedTask) = true) /\
  timedTaskId (fst (Part000.start "task-2" (Granted 1%positive) twoTasks)) = Some "task-2" /\
  getElementById (document (windows (fst (Part000.start "task-2" (Granted 1%positive) twoTasks))
                              1%positive)) "timer-display" =
    Some (mkElement (formatTime (timeSpent timedTask)) "").
Proof.
  assert (Hidle : Idle twoTasks) by (repeat split).
  split; [split; [exact Hidle|repeat split; discriminate]|].
  destruct (part000_start_opens_session twoTasks "task-2" timedTask 1%positive Hidle eq_refl
              eq_refl ltac:(discriminate)) as (_ & H2 & _ & _ & _ & _ & _ & H8).
  split; [exact H2|exact (proj1 (proj2 (H8 eq_refl)))].
Defined.

(** ** [Direct]: what an interval closes over *)










(** ** What a tick writes into the window *)







(** ** Visibility *)

Lemma timerEffect_view s :
  isDistracted (Widget.timerEffect s) = isDistracted s /\
  windows (Widget.timerEffect s) = windows s.
Proof.
  unfold Widget.timerEffect.
  assert (H : isDistracted (if cleanup s then
                      match timerIntervalRef s with Some h => clearInterval h s | None => s end
                    else s) = isDistracted s /\
              windows (if cleanup s then
                      match timerIntervalRef s with Some h => clearInterval h s | None => s end
                    else s) = windows s)
    by (destruct (cleanup s); [destruct (timerIntervalRef s)|]; split; reflexivity).
  revert H. generalize (if cleanup s then
                      match timerIntervalRef s with Some h => clearInterval h s | None => s end
                    else s).
  intros s1 H. destruct (timedTaskId s1) as [T|]; [|exact H].
  destruct (truthy (Some T)); exact H.
Qed.

(** X21.  A change of visibility sets the distraction flag to "hidden" and
    gives the body of the timer window the class ['distraction'] exactly
    when the page is hidden: in [Widget] when the window held is open, in
    [Direct] whenever a window is held; [Direct] hears the change only while
    its listener is on, and otherwise nothing changes. *)
Theorem visibility_sets_flag_and_class (hidden : bool) (s : App) :
  (isDistracted (Widget.step (Widget.VisibilityChange hidden) s) = hidden /\
   forall w, pipWindowRef s = Some w -> closed (windows s w) = false ->
     distraction (document (windows (Widget.step (Widget.VisibilityChange hidden) s) w)) =
       hidden) /\
  (listening s = true ->
   isDistracted (Direct.step (Direct.VisibilityChange hidden) s) = hidden /\
   forall w, pipWindowRef s = Some w ->
     distraction (document (windows (Direct.step (Direct.VisibilityChange hidden) s) w)) =
       hidden) /\
  (listening s = false -> Direct.step (Direct.VisibilityChange hidden) s = s).
Proof.
  split; [|split].
  - cbn [Widget.step]. unfold Widget.afterIsDistracted.
    assert (H : isDistracted (Widget.handleVisibilityChange hidden s) = hidden /\
                forall w, pipWindowRef s = Some w -> closed (windows s w) = false ->
                  distraction (document (windows (Widget.handleVisibilityChange hidden s) w)) =
                    hidden).
    { unfold Widget.handleVisibilityChange. cbn.
      destruct (pipWindowRef s) as [w0|]; [|split; [reflexivity|discriminate]].
      destruct (closed (windows s w0)) eqn:Hc; cbn; (split; [reflexivity|]);
        intros w [= <-] Hc'; [congruence|]. cbn. rewrite upd_eq. reflexivity. }
    destruct (Bool.eqb (isDistracted s) (isDistracted (Widget.handleVisibilityChange hidden s)));
      [exact H|].
    destruct (timerEffect_view (Widget.handleVisibilityChange hidden s)) as [-> ->]. exact H.
  - intros Hl. cbn [Direct.step]. rewrite Hl. unfold Direct.handleVisibilityChange. cbn.
    destruct (pipWindowRef s) as [w0|]; [|split; [reflexivity|discriminate]].
    split; [reflexivity|]. intros w [= <-]. cbn. rewrite upd_eq. reflexivity.
  - intros Hl. cbn [Direct.step]. rewrite Hl. reflexivity.
Qed.

Lemma visibility_sets_flag_and_class_witness :
  (pipWindowRef widgetSession = Some 1%positive /\
   closed (windows widgetSession 1%positive) = false) /\
  distraction (document (windows (Widget.step (Widget.VisibilityChange true) widgetSession)
                           1%positive)) = true /\
  (listening twoTasks = false /\
   Direct.step (Direct.VisibilityChange true) twoTasks = twoTasks) /\
  (listening (reachedDirect (take 2 hiddenWhileTiming)) = true /\
   isDistracted (Direct.step (Direct.VisibilityChange true)
                   (reachedDirect (take 2 hiddenWhileTiming))) = true).
Proof.
  split; [split; reflexivity|].
  split; [exact (proj2 (proj1 (visibility_sets_flag_and_class true widgetSession))
                   1%positive eq_refl eq_refl)|].
  split; [split; [reflexivity|
            exact (proj2 (proj2 (visibility_sets_flag_and_class true twoTasks)) eq_refl)]|].
  split; [reflexivity|].
  exact (proj1 (proj1 (proj2 (visibility_sets_flag_and_class true
                                (reachedDirect (take 2 hiddenWhileTiming)))) eq_refl)).
Defined.
